(** * auto_qc.py: scanning sequencer output for runs that await routine QC

    A shallow embedding of [auto_qc.py] and the properties of its
    scan / filter / classify / build pass.

    Python [str] values are sequences of Unicode code points; the
    filesystem is a tree of directories and files addressed by POSIX path
    strings; [os.urandom] is an oracle read through a call counter.

    As committed, line 26 of the script opens three parentheses and
    closes two: the file does not compile and nothing of it runs
    ([Source.auto_qc_py], [Source.python]).  The tasks and the flow are
    embedded with the missing parenthesis put at the end of the [if]
    condition, [f.is_dir() and os.path.exists(os.path.join(f,
    'upload_complete.json'))].  What is proved of [list_subdirectories]
    and of the flow built on it holds of the script with line 26 mended
    this way, not of the file as it is. *)

From Stdlib Require Import List NArith ZArith Ascii String Bool Arith Lia.
Import ListNotations.

Set Implicit Arguments.

(* ================================================================== *)
(** ** Python strings *)
(* ================================================================== *)

Module Str.

(** A code point, [0 .. 0x10FFFF]. *)
Definition codepoint := N.

(** An immutable [str]. *)
Definition pystr := list codepoint.

(** An ASCII literal of the script as a [str]. *)
Definition py (s : string) : pystr :=
  map N_of_ascii (list_ascii_of_string s).

Definition ord (a : ascii) : codepoint := N_of_ascii a.

Fixpoint eqb (s t : pystr) : bool :=
  match s, t with
  | [], [] => true
  | c :: s', d :: t' => N.eqb c d && eqb s' t'
  | _, _ => false
  end.

(** [s.startswith(p)] *)
Fixpoint startswith (s p : pystr) : bool :=
  match p, s with
  | [], _ => true
  | d :: p', c :: s' => N.eqb c d && startswith s' p'
  | _ :: _, [] => false
  end.

(** [s.endswith(p)] *)
Definition endswith (s p : pystr) : bool :=
  startswith (rev s) (rev p).

(** [p in s]: [p] occurs in [s] as a contiguous run. *)
Fixpoint contains (s p : pystr) : bool :=
  startswith s p ||
  match s with
  | [] => false
  | _ :: s' => contains s' p
  end.

(** [s.split(c)] for a one-character separator. *)
Fixpoint split (c : codepoint) (s : pystr) : list pystr :=
  match s with
  | [] => [[]]
  | x :: s' =>
      if N.eqb x c then [] :: split c s'
      else match split c s' with
           | [] => [[x]]
           | h :: t => (x :: h) :: t
           end
  end.

(** [s.rfind(c)]: the index of the last [c] in [s], or [-1]. *)
Fixpoint rfind (c : codepoint) (s : pystr) : Z :=
  match s with
  | [] => (-1)%Z
  | x :: s' =>
      let r := rfind c s' in
      if (0 <=? r)%Z then (r + 1)%Z
      else if N.eqb x c then 0%Z else (-1)%Z
  end.

(** [s[i:j]] for [0 <= i <= j]. *)
Definition slice (i j : nat) (s : pystr) : pystr :=
  firstn (j - i) (skipn i s).

(** The words of a command line: maximal runs without a blank. *)
Definition words (s : pystr) : list pystr :=
  filter (fun w => negb (eqb w [])) (split (ord " ") s).

End Str.

Import Str.

(* ================================================================== *)
(** ** The [re] module, as far as the two patterns need it *)
(* ================================================================== *)

Module Re.

(** Zero digits of the decimal-digit blocks above ASCII (Unicode
    general category Nd, Unicode 14.0.0: each block is ten consecutive
    code points).  For a [str] pattern, [\d] matches every character of
    that category, not only [0-9]. *)
Definition Nd_zeros : list N :=
  [1632; 1776; 1984; 2406; 2534; 2662; 2790; 2918; 3046; 3174; 3302;
   3430; 3558; 3664; 3792; 3872; 4160; 4240; 6112; 6160; 6470; 6608;
   6784; 6800; 6992; 7088; 7232; 7248; 42528; 43216; 43264; 43472;
   43504; 43600; 44016; 65296; 66720; 68912; 69734; 69872; 69942;
   70096; 70384; 70736; 70864; 71248; 71360; 71472; 71904; 72016;
   72784; 73040; 73120; 92768; 92864; 93008;
   120782; 120792; 120802; 120812; 120822;
   123200; 123632; 125264; 130032]%N.

Definition in_range (lo hi c : codepoint) : bool :=
  (N.leb lo c && N.leb c hi)%bool.

(** [Py_UNICODE_ISDECIMAL] *)
Definition is_decimal (c : codepoint) : bool :=
  in_range (ord "0") (ord "9") c
  || existsb (fun z => in_range z (z + 9)%N c) Nd_zeros.

(** One-character matchers. *)
Inductive atom : Type :=
| Literal (c : codepoint)                      (* an ordinary character *)
| Digit                                        (* [\d] *)
| InRanges (ranges : list (codepoint * codepoint)).  (* [[A-Z0-9]] *)

Definition atom_matches (a : atom) (c : codepoint) : bool :=
  match a with
  | Literal d => N.eqb c d
  | Digit => is_decimal c
  | InRanges ranges => existsb (fun r => in_range (fst r) (snd r) c) ranges
  end.

(** A greedy repeat [a{lo,hi}]; [hi = None] is unbounded. *)
Record item : Type := Repeat { it_atom : atom; it_min : nat; it_max : option nat }.

Definition pattern := list item.

Definition may_take (hi : option nat) : bool :=
  match hi with Some 0 => false | _ => true end.

Definition dec (hi : option nat) : option nat := option_map pred hi.

(** The backtracking matcher of a greedy repeat: take one more [a] when
    the bound allows it and the rest of the pattern then succeeds,
    otherwise stop here, which needs the lower bound to be reached.
    [k] matches the rest of the pattern and returns what is left of the
    subject. *)
Fixpoint max_repeat (a : atom) (lo : nat) (hi : option nat)
         (k : pystr -> option pystr) (s : pystr) : option pystr :=
  let stop := if Nat.eqb lo 0 then k s else None in
  match s with
  | c :: s' =>
      if (atom_matches a c && may_take hi)%bool then
        match max_repeat a (pred lo) (dec hi) k s' with
        | Some r => Some r
        | None => stop
        end
      else stop
  | [] => stop
  end.

(** Matching a pattern at the head of [s]: the text after the match. *)
Fixpoint match_at (p : pattern) (s : pystr) : option pystr :=
  match p with
  | [] => Some s
  | it :: p' => max_repeat (it_atom it) (it_min it) (it_max it) (match_at p') s
  end.

(** [re.match(p, s)]: [None], or the matched text [m.group(0)], which
    starts at index 0 of [s]. *)
Definition re_match (p : pattern) (s : pystr) : option pystr :=
  match match_at p s with
  | Some rest => Some (firstn (List.length s - List.length rest) s)
  | None => None
  end.

(** Truth value of the match object in an [if]. *)
Definition truthy {A : Type} (m : option A) : bool :=
  match m with Some _ => true | None => false end.

(** Pattern syntax. *)
Definition chr (a : ascii) : item := Repeat (Literal (ord a)) 1 (Some 1).
Definition times (a : atom) (n : nat) : item := Repeat a n (Some n).
Definition plus (a : atom) : item := Repeat a 1 None.
Definition A_Z0_9 : atom := InRanges [(ord "A", ord "Z"); (ord "0", ord "9")].

End Re.

Import Re.

(* ================================================================== *)
(** ** Run classification (lines 32-39 of [build_workflow_command]) *)
(* ================================================================== *)

(** ['\d{6}_M\d{5}_\d+_\d{9}-[A-Z0-9]{5}'] *)
Definition miseq_regex : pattern :=
  [times Digit 6; chr "_"; chr "M"; times Digit 5; chr "_"; plus Digit;
   chr "_"; times Digit 9; chr "-"; times A_Z0_9 5].

(** ['\d{6}_VH\d{5}_\d+_[A-Z0-9]{9}'] *)
Definition nextseq_regex : pattern :=
  [times Digit 6; chr "_"; chr "V"; chr "H"; times Digit 5; chr "_";
   plus Digit; chr "_"; times A_Z0_9 9].

(** The value of the variable [instrument_type] after the [if]/[elif]:
    ['miseq'], ['nextseq'], or still [None]. *)
Definition instrument_type (run_id : pystr) : option pystr :=
  if truthy (re_match miseq_regex run_id) then Some (py "miseq")
  else if truthy (re_match nextseq_regex run_id) then Some (py "nextseq")
  else None.

(** The three instrument types, and the value the variable
    [instrument_type] holds for each: the script has no name for the
    third and leaves the variable at [None]. *)
Inductive InstrumentType : Type := miseq | nextseq | unknown.

Definition value_of (t : InstrumentType) : option pystr :=
  match t with
  | miseq => Some (py "miseq")
  | nextseq => Some (py "nextseq")
  | unknown => None
  end.

(** How an f-string renders [{instrument_type}]: [format(v, '')]. *)
Definition format (v : option pystr) : pystr :=
  match v with
  | Some s => s
  | None => py "None"
  end.

(* ================================================================== *)
(** ** [posixpath] *)
(* ================================================================== *)

Module Posixpath.

Definition sep : codepoint := ord "/".

(** [os.path.join(a, b)] *)
Definition join (a b : pystr) : pystr :=
  if startswith b [sep] then b
  else if (Str.eqb a [] || endswith a [sep])%bool then a ++ b
  else a ++ [sep] ++ b.

(** [os.path.basename(p)]: [i = p.rfind(sep) + 1; return p[i:]] *)
Definition basename (p : pystr) : pystr :=
  let i := (rfind sep p + 1)%Z in
  skipn (Z.to_nat i) p.

End Posixpath.

Import Posixpath.

(* ================================================================== *)
(** ** The filesystem as [os] shows it *)
(* ================================================================== *)

Module Os.

(** A file of any kind other than a directory, or a directory with its
    entries in the order [os.scandir] yields them.  Symbolic links are
    followed by every call the script makes, so a link stands here for
    what it points to.  A link that points nowhere, which [os.scandir]
    lists and [os.path.exists] denies, has no node. *)
#[warnings="-register-all"] Inductive node : Type :=
| File
| Dir (entries : list (pystr * node)).

Record filesystem : Type := Filesystem {
  root : node;          (* the directory [/] *)
  cwd : list pystr      (* the working directory, as names from [/] *)
}.

Fixpoint lookup (name : pystr) (entries : list (pystr * node)) : option node :=
  match entries with
  | [] => None
  | (n, x) :: rest => if Str.eqb n name then Some x else lookup name rest
  end.

(** Path resolution, one component at a time.  [anc] holds the
    directories above [cur], nearest first; an empty component and [.]
    stay in place, [..] goes up and stays at [/]; every component needs
    [cur] to be a directory. *)
Fixpoint walk (anc : list node) (cur : node) (comps : list pystr)
  : option (list node * node) :=
  match comps with
  | [] => Some (anc, cur)
  | c :: rest =>
      match cur with
      | File => None
      | Dir entries =>
          if (Str.eqb c [] || Str.eqb c (py "."))%bool then walk anc cur rest
          else if Str.eqb c (py "..") then
            match anc with
            | [] => walk [] cur rest
            | up :: anc' => walk anc' up rest
            end
          else
            match lookup c entries with
            | Some x => walk (cur :: anc) x rest
            | None => None
            end
      end
  end.

Definition resolve (fs : filesystem) (path : pystr) : option (list node * node) :=
  match path with
  | [] => None
  | c :: _ =>
      walk [] (root fs)
           ((if N.eqb c sep then [] else cwd fs) ++ split sep path)
  end.

(** [os.stat(path)]; [None] stands for the [OSError]. *)
Definition stat (fs : filesystem) (path : pystr) : option node :=
  option_map snd (resolve fs path).

(** [os.path.exists(path)] *)
Definition path_exists (fs : filesystem) (path : pystr) : bool :=
  truthy (stat fs path).

Definition isdir (x : node) : bool :=
  match x with Dir _ => true | File => false end.

Record DirEntry : Type := Entry {
  name : pystr;
  path : pystr;         (* [os.path.join(scandir_path, name)] *)
  is_dir : bool
}.

(** [os.scandir(path)]; [None] stands for the [OSError] raised when
    [path] is missing or not a directory. *)
Definition scandir (fs : filesystem) (path : pystr) : option (list DirEntry) :=
  match stat fs path with
  | Some (Dir entries) =>
      Some (map (fun e => Entry (fst e) (join path (fst e)) (isdir (snd e)))
                entries)
  | _ => None
  end.

(** Names a directory can hold: not empty, no [/], neither [.] nor
    [..]. *)
Definition plain_name (n : pystr) : bool :=
  (negb (Str.eqb n []) && negb (existsb (N.eqb sep) n)
   && negb (Str.eqb n (py ".")) && negb (Str.eqb n (py "..")))%bool.

Fixpoint distinct (names : list pystr) : bool :=
  match names with
  | [] => true
  | n :: rest => (negb (existsb (Str.eqb n) rest) && distinct rest)%bool
  end.

(** A directory listing as a filesystem keeps it. *)
Definition wf_entries (entries : list (pystr * node)) : bool :=
  (forallb plain_name (map fst entries) && distinct (map fst entries))%bool.

(** The directory [x] has an entry called [name], of whatever kind. *)
Definition has_entry (name : pystr) (x : node) : bool :=
  match x with
  | Dir entries => truthy (lookup name entries)
  | File => false
  end.

End Os.

Import Os.

(* ================================================================== *)
(** ** [uuid] *)
(* ================================================================== *)

Module Uuid.

(** [UUID(bytes=b, version=4).int], for [int = int.from_bytes(b)]. *)
Definition UUID_v4 (int : Z) : Z :=
  let int := Z.land int (Z.lnot (Z.shiftl 0xc000 48)) in
  let int := Z.lor int (Z.shiftl 0x8000 48) in
  let int := Z.land int (Z.lnot (Z.shiftl 0xf000 64)) in
  Z.lor int (Z.shiftl 4 76).

Definition hexdigit (d : Z) : codepoint :=
  nth (Z.to_nat d) (py "0123456789abcdef") 0%N.

(** ['%0kx' % n], for [0 <= n < 16^k]. *)
Fixpoint hex (k : nat) (n : Z) : pystr :=
  match k with
  | O => []
  | S k' => hex k' (n / 16) ++ [hexdigit (n mod 16)]
  end.

(** [UUID.__str__] *)
Definition str (int : Z) : pystr :=
  let h := hex 32 int in
  slice 0 8 h ++ py "-" ++ slice 8 12 h ++ py "-" ++ slice 12 16 h
    ++ py "-" ++ slice 16 20 h ++ py "-" ++ skipn 20 h.

End Uuid.

(* ================================================================== *)
(** ** Effects: the world a task runs in *)
(* ================================================================== *)

Record world : Type := World {
  fs : filesystem;
  urandom : nat -> Z;            (* what the n-th [os.urandom(16)] returns *)
  urandom_calls : nat;           (* how many were made *)
  spawned : list pystr;          (* commands run as child processes *)
  shell : pystr -> list pystr;   (* what a command writes to its stdout *)
  printed : list (list pystr)    (* what this process printed *)
}.

Inductive exn : Type := OSError.

Inductive result (A : Type) : Type :=
| Ok (a : A)
| Raise (e : exn).

Arguments Ok {A} a.
Arguments Raise {A} e.

Definition M (A : Type) : Type := world -> result A * world.

Definition ret {A} (a : A) : M A := fun w => (Ok a, w).

Definition bind {A B} (c : M A) (k : A -> M B) : M B :=
  fun w =>
    match c w with
    | (Ok a, w') => k a w'
    | (Raise e, w') => (Raise e, w')
    end.

Declare Scope monad_scope.
Delimit Scope monad_scope with monad.
Notation "x <- c ;; k" := (bind c (fun x => k))
  (at level 61, c at next level, right associativity) : monad_scope.
Open Scope monad_scope.

(** A [for] loop that updates one local variable. *)
Fixpoint for_in {A B} (xs : list A) (body : A -> B -> M B) (acc : B) : M B :=
  match xs with
  | [] => ret acc
  | x :: rest => acc' <- body x acc ;; for_in rest body acc'
  end.

(** A task mapped over a list, element by element. *)
Fixpoint map_task {A B} (f : A -> M B) (xs : list A) : M (list B) :=
  match xs with
  | [] => ret []
  | x :: rest => y <- f x ;; ys <- map_task f rest ;; ret (y :: ys)
  end.

Definition os_scandir (p : pystr) : M (list DirEntry) :=
  fun w =>
    match scandir (fs w) p with
    | Some entries => (Ok entries, w)
    | None => (Raise OSError, w)
    end.

Definition os_path_exists (p : pystr) : M bool :=
  fun w => (Ok (path_exists (fs w) p), w).

(** [uuid.uuid4()]: sixteen fresh bytes from [os.urandom]. *)
Definition uuid4 : M Z :=
  fun w =>
    let int := (urandom w (urandom_calls w) mod 2 ^ 128)%Z in
    (Ok (Uuid.UUID_v4 int),
     World (fs w) (urandom w) (S (urandom_calls w)) (spawned w) (shell w)
           (printed w)).

(* ================================================================== *)
(** ** The tasks of [auto_qc.py] *)
(* ================================================================== *)

(** [show_output] *)
Definition show_output (std_out : list pystr) : M unit :=
  fun w =>
    (Ok tt,
     World (fs w) (urandom w) (urandom_calls w) (spawned w) (shell w)
           (printed w ++ [std_out])).

(** [list_subdirectories], with the parenthesis that line 26 lacks put
    at the end of the condition.  Other places for it parse as well
    (behind [f], or behind [os.path.join]); this is the one that makes
    the condition the conjunction of the two tests. *)
Definition list_subdirectories (parent_dir : pystr) : M (list pystr) :=
  entries <- os_scandir parent_dir ;;
  for_in entries
    (fun f subdirectories =>
       if is_dir f then
         e <- os_path_exists (join (path f) (py "upload_complete.json")) ;;
         if e : bool then ret (subdirectories ++ [path f])
         else ret subdirectories
       else ret subdirectories)
    [].

(** [build_workflow_command] *)
Definition build_workflow_command (run_dir : pystr) : M pystr :=
  let run_id := basename run_dir in
  let instrument_type := instrument_type run_id in
  let pipeline_name := py "BCCDC-PHL/routine-qc" in
  let pipeline_version := py "v0.3.2" in
  let nextflow_base_cmd := py "nextflow run" in
  let outdir := join run_dir (py "RoutineQC") in
  work_dir_uuid <- uuid4 ;;
  let work_dir := join run_dir (py "work-" ++ Uuid.str work_dir_uuid) in
  let workflow_cmd :=
    (nextflow_base_cmd ++ py " " ++ pipeline_name
       ++ py " -profile conda --cache ~/.conda/envs -r " ++ pipeline_version)
    ++ (py "--run_dir " ++ run_dir ++ py " --instrument_type "
          ++ format instrument_type ++ py " -work " ++ work_dir
          ++ py " --outdir " ++ outdir) in
  ret workflow_cmd.

(** [FilterTask(filter_func=f).run(task_results)]:
    [[r for r in task_results if f(r)]] *)
Fixpoint FilterTask {A} (filter_func : A -> M bool) (task_results : list A)
  : M (list A) :=
  match task_results with
  | [] => ret []
  | r :: rest =>
      keep <- filter_func r ;;
      filtered <- FilterTask filter_func rest ;;
      ret (if keep : bool then r :: filtered else filtered)
  end.

(** [filter_analyzed_runs] *)
Definition filter_analyzed_runs : list pystr -> M (list pystr) :=
  FilterTask (fun x =>
    e <- os_path_exists (join x (py "RoutineQC")) ;; ret (negb e)).

(** A [ShellTask] object: the command it would run. *)
Inductive ShellTask : Type := mkShellTask (command : pystr).

(** [ShellTask.run], for a task made as the script makes it: the
    command runs as a child process, and the last line it writes to its
    standard output is the task's result, [None] when it writes none.
    The exit status of the command is not modelled. *)
Definition ShellTask_run (t : ShellTask) : M (option pystr) :=
  fun w =>
    let 'mkShellTask cmd := t in
    (Ok (hd_error (rev (shell w cmd))),
     World (fs w) (urandom w) (urandom_calls w) (spawned w ++ [cmd])
           (shell w) (printed w)).

(** [build_workflow_task] *)
Definition build_workflow_task (cmd : pystr) : M ShellTask :=
  let task := mkShellTask cmd in
  ret task.

(** What one run of the flow computes: the result of each task bound in
    the [with Flow(...)] block. *)
Record flow_state : Type := FlowState {
  subdirs : list pystr;
  subdirs_to_analyze : list pystr;
  cmd : list pystr
}.

Record Flow : Type := mkFlow {
  flow_name : pystr;
  schedule : Z;               (* seconds between two runs *)
  flow_tasks : M flow_state
}.

(** [build_flow], for an [interval] that [timedelta] and
    [IntervalSchedule] accept, a positive number of seconds: [main]
    hands over the string of the command line when [--interval] is
    given, and they refuse it.  A run in which the scanner raises is a
    failed run: what the later tasks make of the failure is not told
    apart from it. *)
Definition build_flow (parent_dir : pystr) (interval : Z) : Flow :=
  let check_for_runs_schedule := interval in
  mkFlow (py "routine_qc") check_for_runs_schedule
    (subdirs <- list_subdirectories parent_dir ;;
     subdirs_to_analyze <- filter_analyzed_runs subdirs ;;
     cmd <- map_task build_workflow_command subdirs_to_analyze ;;
     ret (FlowState subdirs subdirs_to_analyze cmd)).

(** One scheduled run of a flow. *)
Definition run_once (flow : Flow) : M flow_state := flow_tasks flow.

(** [flow.run()], cut after [n] scheduled runs: every run starts from the
    world the previous one left, whatever its outcome. *)
Fixpoint flow_run (flow : Flow) (n : nat) (w : world)
  : list (result flow_state) * world :=
  match n with
  | O => ([], w)
  | S n' =>
      let (r, w') := run_once flow w in
      let (rs, w'') := flow_run flow n' w' in
      (r :: rs, w'')
  end.

(** The run directories a pass built a command for, each with its
    command. *)
Definition built (st : flow_state) : list (pystr * pystr) :=
  combine (subdirs_to_analyze st) (cmd st).

(* ================================================================== *)
(** ** The file as committed *)
(* ================================================================== *)

Module Source.

Open Scope string_scope.

(** The double quote character. *)
Definition dq : string := String (ascii_of_nat 34) EmptyString.

(** [auto_qc.py], line by line. *)
Definition auto_qc_py : list string :=
  ["#!/usr/bin/env python";
   "";
   "";
   "import argparse";
   "import json";
   "import os";
   "import re";
   "import uuid";
   "";
   "from prefect import task, Flow";
   "from prefect.tasks.shell import ShellTask";
   "from prefect.tasks.control_flow.filter import FilterTask";
   "";
   "from datetime import time, timedelta";
   "from prefect.schedules import IntervalSchedule";
   "";
   "";
   "@task";
   "def show_output(std_out):";
   "    print(std_out)";
   "";
   "@task";
   "def list_subdirectories(parent_dir):";
   "    subdirectories = []";
   "    for f in os.scandir(parent_dir):";
   "        if f.is_dir() and os.path.exists(os.path.join(f, 'upload_complete.json'):";
   "            subdirectories.append(f.path)";
   "    return subdirectories";
   "";
   "@task";
   "def build_workflow_command(run_dir):";
   "    run_id = os.path.basename(run_dir)";
   "    miseq_regex = '\d{6}_M\d{5}_\d+_\d{9}-[A-Z0-9]{5}'";
   "    nextseq_regex = '\d{6}_VH\d{5}_\d+_[A-Z0-9]{9}'";
   "    instrument_type = None";
   "    if re.match(miseq_regex, run_id):";
   "        instrument_type = 'miseq'";
   "    elif re.match(nextseq_regex, run_id):";
   "        instrument_type = 'nextseq'";
   "    pipeline_name = 'BCCDC-PHL/routine-qc'";
   "    pipeline_version = 'v0.3.2'";
   "    nextflow_base_cmd  = 'nextflow run'";
   "    outdir = os.path.join(run_dir, 'RoutineQC')";
   "    work_dir_uuid = uuid.uuid4()";
   "    work_dir = os.path.join(run_dir, 'work-' + str(work_dir_uuid))";
   "    workflow_cmd = (f'{nextflow_base_cmd} {pipeline_name} -profile conda --cache ~/.conda/envs -r {pipeline_version}'";
   "                    f'--run_dir {run_dir} --instrument_type {instrument_type} -work {work_dir} --outdir {outdir}')";
   "";
   "    return workflow_cmd";
   "";
   "";
   "filter_analyzed_runs = FilterTask(filter_func=lambda x: not os.path.exists(os.path.join(x, 'RoutineQC')))";
   "";
   "";
   "@task";
   "def build_workflow_task(cmd):";
   "    task = ShellTask(command=cmd)";
   "    return task";
   "";
   "";
   "def build_flow(parent_dir, interval):";
   "    check_for_runs_schedule = IntervalSchedule(";
   "        interval=timedelta(seconds=interval)";
   "    )";
   "";
   ("    with Flow(" ++ dq ++ "routine_qc" ++ dq ++ ", schedule=check_for_runs_schedule) as flow:");
   "        subdirs = list_subdirectories(parent_dir)";
   "        subdirs_to_analyze = filter_analyzed_runs(subdirs)";
   "        cmd = build_workflow_command.map(subdirs_to_analyze)";
   "        ";
   "    return flow";
   "";
   "";
   "def main():";
   "    parser = argparse.ArgumentParser()";
   "    parser.add_argument('--interval', default=10)";
   "    parser.add_argument('sequencer_output_dir')";
   "    args = parser.parse_args()";
   "    ";
   "    flow = build_flow(args.sequencer_output_dir, args.interval)";
   "    flow.run()";
   "";
   "if __name__ == '__main__':";
   "    main()"].

Close Scope string_scope.

(** Where the tokenizer is: in code, inside a string literal opened by
    [q], behind a backslash inside such a literal, or in a comment. *)
Inductive mode : Type :=
| Code
| Quoted (q : ascii)
| Escaped (q : ascii)
| Comment.

Record lexer : Type := Lexer {
  at_mode : mode;
  opened : nat;        (* brackets that are open *)
  bad : bool           (* a closing bracket with none open, or a string
                          literal that its line does not close *)
}.

Definition is_opening (c : ascii) : bool :=
  (Ascii.eqb c "(" || Ascii.eqb c "[" || Ascii.eqb c "{")%bool.

Definition is_closing (c : ascii) : bool :=
  (Ascii.eqb c ")" || Ascii.eqb c "]" || Ascii.eqb c "}")%bool.

Definition is_quote (c : ascii) : bool :=
  (Ascii.eqb c "'" || Ascii.eqb c (ascii_of_nat 34))%bool.

Definition lex_char (l : lexer) (c : ascii) : lexer :=
  match at_mode l with
  | Comment => l
  | Escaped q => Lexer (Quoted q) (opened l) (bad l)
  | Quoted q =>
      if Ascii.eqb c "\" then Lexer (Escaped q) (opened l) (bad l)
      else if Ascii.eqb c q then Lexer Code (opened l) (bad l)
      else l
  | Code =>
      if is_quote c then Lexer (Quoted c) (opened l) (bad l)
      else if Ascii.eqb c "#" then Lexer Comment (opened l) (bad l)
      else if is_opening c then Lexer Code (S (opened l)) (bad l)
      else if is_closing c then
        match opened l with
        | O => Lexer Code O true
        | S k => Lexer Code k (bad l)
        end
      else l
  end.

Fixpoint lex_chars (l : lexer) (s : string) : lexer :=
  match s with
  | EmptyString => l
  | String c s' => lex_chars (lex_char l c) s'
  end.

(** A line ends a comment; a string literal still open at the end of its
    line is an error. *)
Definition lex_line (l : lexer) (s : string) : lexer :=
  let l' := lex_chars l s in
  match at_mode l' with
  | Code => l'
  | Comment => Lexer Code (opened l') (bad l')
  | Quoted _ | Escaped _ => Lexer Code (opened l') true
  end.

Definition lex (src : list string) : lexer :=
  fold_left lex_line src (Lexer Code 0 false).

(** The brackets open after the first [k] lines. *)
Definition open_after (src : list string) (k : nat) : nat :=
  opened (lex (firstn k src)).

(** The end of the file is reached with every bracket closed. *)
Definition brackets_closed (src : list string) : bool :=
  (Nat.eqb (opened (lex src)) 0 && negb (bad (lex src)))%bool.

Fixpoint count_char (c : ascii) (s : string) : nat :=
  match s with
  | EmptyString => 0
  | String d s' => (if Ascii.eqb d c then 1 else 0) + count_char c s'
  end.

(** What [python file] does with a program: the file is compiled first,
    and a file that ends inside a bracket is a [SyntaxError]; then
    nothing of it runs, neither its definitions nor its [main]. *)
Inductive outcome (A : Type) : Type :=
| SyntaxError
| Ran (a : A).

Arguments SyntaxError {A}.
Arguments Ran {A} a.

Definition python {A : Type} (src : list string) (run : world -> A * world)
           (w : world) : outcome A * world :=
  if brackets_closed src then
    let (a, w') := run w in (Ran a, w')
  else (SyntaxError, w).

End Source.

Import Source.

(* ================================================================== *)
(** ** What the patterns denote *)
(* ================================================================== *)

(** [u] is a run of [a] that the repeat [a{lo,hi}] accepts. *)
Definition run_of (it : item) (u : pystr) : Prop :=
  forallb (atom_matches (it_atom it)) u = true
  /\ it_min it <= List.length u
  /\ match it_max it with Some hi => List.length u <= hi | None => True end.

(** [m] is, as a whole, a word of the pattern. *)
Fixpoint in_lang (p : pattern) (m : pystr) : Prop :=
  match p with
  | [] => m = []
  | it :: p' => exists u v, m = u ++ v /\ run_of it u /\ in_lang p' v
  end.

(** The two markers. *)
Definition upload_complete : pystr := py "upload_complete.json".
Definition RoutineQC : pystr := py "RoutineQC".

(** A run directory that is complete and not analysed yet. *)
Definition eligible (x : node) : bool :=
  (has_entry upload_complete x && negb (has_entry RoutineQC x))%bool.

(** What a run of the flow leaves as the runs to analyse. *)
Definition eligible_runs (r : result flow_state) : option (list pystr) :=
  match r with
  | Ok st => Some (subdirs_to_analyze st)
  | Raise _ => None
  end.

(** A sequencer output directory [/data] to run the tasks on: one
    complete run with an unrecognised name, one run still uploading, one
    run analysed already, a stray file, one complete MiSeq run, and a
    marker one level too deep. *)
Definition sample_runs : list (pystr * node) :=
  [(py "runA", Dir [(upload_complete, File); (py "Data", Dir [])]);
   (py "runB", Dir [(py "Data", Dir [])]);
   (py "runC", Dir [(upload_complete, File); (RoutineQC, Dir [])]);
   (py "notes.txt", File);
   (py "201203_M00325_0123_000000000-A1B2C", Dir [(upload_complete, File)]);
   (py "nested", Dir [(py "inner", Dir [(upload_complete, File)])])].

Definition sample_root : node :=
  Dir [(py "data", Dir sample_runs); (py "home", Dir [])].

Definition sample_fs : filesystem := Filesystem sample_root [py "home"].

Definition sample_world : world :=
  World sample_fs
        (fun n => (Z.of_nat n * 0x123456789abcdef0123456789abcdef + 77)%Z)
        0 [] (fun _ => []) [].

(** The UUID the next call of [uuid4] returns in [w], and the world it
    leaves. *)
Definition next_uuid (w : world) : Z :=
  Uuid.UUID_v4 (urandom w (urandom_calls w) mod 2 ^ 128)%Z.

Definition after_draw (w : world) : world :=
  World (fs w) (urandom w) (S (urandom_calls w)) (spawned w) (shell w)
        (printed w).

(** The UUID [uuid4] makes of draw number [k] of [os.urandom]. *)
Definition uuid_of_draw (w : world) (k : nat) : Z :=
  Uuid.UUID_v4 (urandom w k mod 2 ^ 128)%Z.

(** The text [workflow_cmd] of [build_workflow_command] for a run
    directory and the UUID drawn. *)
Definition workflow_cmd (run_dir : pystr) (work_dir_uuid : Z) : pystr :=
  py "nextflow run BCCDC-PHL/routine-qc -profile conda --cache ~/.conda/envs -r v0.3.2--run_dir "
    ++ run_dir ++ py " --instrument_type "
    ++ format (instrument_type (basename run_dir))
    ++ py " -work " ++ join run_dir (py "work-" ++ Uuid.str work_dir_uuid)
    ++ py " --outdir " ++ join run_dir (py "RoutineQC").

(** The least number of characters a word of a pattern has. *)
Definition min_length (p : pattern) : nat :=
  fold_right (fun it n => it_min it + n) 0 p.

Definition blank : codepoint := ord " ".

Definition has_blank (s : pystr) : bool := existsb (N.eqb blank) s.

Definition has_sep (s : pystr) : bool := existsb (N.eqb sep) s.

Definition is_hex (c : codepoint) : bool :=
  existsb (N.eqb c) (py "0123456789abcdef").



(** A run directory whose markers are of the other kind: the completion
    marker a directory, the analysis marker a regular file. *)
Definition odd_runs : list (pystr * node) :=
  [(py "runF", Dir [(upload_complete, File); (RoutineQC, File)]);
   (py "runD", Dir [(upload_complete, Dir [])])].

Definition odd_world : world :=
  World (Filesystem (Dir [(py "data", Dir odd_runs)]) [])
        (fun _ => 0%Z) 0 [] (fun _ => []) [].



(* ================================================================== *)
(** * Properties *)
(* ================================================================== *)

(** ** Strings *)

Section StrFacts.

Lemma eqb_spec (s t : pystr) : Str.eqb s t = true <-> s = t.
Proof.
  revert t; induction s as [|c s IH]; intros [|d t]; simpl; split;
    try congruence; intros H.
  - apply andb_true_iff in H as [Hc Hs].
    apply N.eqb_eq in Hc. apply IH in Hs. congruence.
  - injection H as -> ->. rewrite N.eqb_refl. simpl. now apply IH.
Qed.

Lemma eqb_refl (s : pystr) : Str.eqb s s = true.
Proof. now apply eqb_spec. Qed.

Lemma startswith_nil (s : pystr) : startswith s [] = true.
Proof. now destruct s. Qed.

Lemma startswith_app (p s : pystr) : startswith (p ++ s) p = true.
Proof.
  induction p as [|c p IH]; simpl; [apply startswith_nil|].
  now rewrite N.eqb_refl.
Qed.

Lemma startswith_spec (s p : pystr) :
  startswith s p = true <-> exists t, s = p ++ t.
Proof.
  split.
  - revert s; induction p as [|d p IH]; intros s H.
    + now exists s.
    + destruct s as [|c s]; simpl in H; [discriminate|].
      apply andb_true_iff in H as [Hc Hs]. apply N.eqb_eq in Hc.
      destruct (IH _ Hs) as [t ->]. exists t. now subst.
  - intros [t ->]. apply startswith_app.
Qed.

Lemma contains_head (s p : pystr) :
  startswith s p = true -> contains s p = true.
Proof. intros H. destruct s; cbn [contains]; now rewrite H. Qed.

Lemma contains_app (a p b : pystr) : contains (a ++ p ++ b) p = true.
Proof.
  induction a as [|c a IH].
  - apply contains_head, (startswith_app p b).
  - change (contains ((c :: a) ++ p ++ b) p)
      with (startswith ((c :: a) ++ p ++ b) p || contains (a ++ p ++ b) p)%bool.
    rewrite IH. apply orb_true_r.
Qed.

Lemma endswith_spec (s : pystr) (c : codepoint) :
  endswith s [c] = true <-> exists s', s = s' ++ [c].
Proof.
  unfold endswith. rewrite startswith_spec. simpl. split.
  - intros [t Ht]. exists (rev t).
    rewrite <- (rev_involutive s), Ht. simpl. reflexivity.
  - intros [s' ->]. exists (rev s'). now rewrite rev_app_distr.
Qed.

Lemma split_nonempty (c : codepoint) (s : pystr) : split c s <> [].
Proof.
  destruct s as [|x s]; simpl; [discriminate|].
  destruct (N.eqb x c); [discriminate|].
  destruct (split c s); discriminate.
Qed.

Lemma split_app_sep (c : codepoint) (a b : pystr) :
  split c (a ++ c :: b) = split c a ++ split c b.
Proof.
  induction a as [|x a IH]; simpl.
  - now rewrite N.eqb_refl.
  - rewrite IH. destruct (N.eqb x c); [reflexivity|].
    pose proof (split_nonempty c a) as Hne.
    destruct (split c a); [contradiction|reflexivity].
Qed.

Lemma split_plain (c : codepoint) (s : pystr) :
  existsb (N.eqb c) s = false -> split c s = [s].
Proof.
  induction s as [|x s IH]; simpl; [reflexivity|].
  intros H. apply orb_false_iff in H as [Hx Hs].
  rewrite N.eqb_sym, Hx, (IH Hs). reflexivity.
Qed.

End StrFacts.

(** ** The matcher against the language of a pattern *)

Section ReFacts.

Variable a : atom.

Lemma max_repeat_sound (k : pystr -> option pystr) (s : pystr) :
  forall lo hi r,
    max_repeat a lo hi k s = Some r ->
    exists u v,
      s = u ++ v /\ run_of (Repeat a lo hi) u /\ k v = Some r.
Proof.
  unfold run_of; simpl.
  assert (Hstop : forall lo (hi : option nat) t r,
             (if Nat.eqb lo 0 then k t else None) = Some r ->
             exists u v,
               t = u ++ v
               /\ (forallb (atom_matches a) u = true /\ lo <= List.length u
                   /\ match hi with
                      | Some h => List.length u <= h
                      | None => True
                      end)
               /\ k v = Some r).
  { intros lo hi t r H. destruct lo; simpl in H; [|discriminate].
    exists [], t. simpl. repeat split; auto. destruct hi; auto with arith. }
  induction s as [|c s' IH]; intros lo hi r H; simpl in H.
  - now apply Hstop.
  - destruct (atom_matches a c && may_take hi)%bool eqn:Hc;
      [|now apply Hstop].
    destruct (max_repeat a (pred lo) (dec hi) k s') as [r'|] eqn:Hrec;
      [|now apply Hstop].
    injection H as ->.
    apply andb_true_iff in Hc as [Ha Ht].
    destruct (IH _ _ _ Hrec) as (u & v & -> & (Hu & Hlo & Hhi) & Hk).
    exists (c :: u), v. simpl. rewrite Ha, Hu. repeat split; auto.
    + lia.
    + destruct hi as [[|h]|]; simpl in *; try discriminate; auto; lia.
Qed.

Lemma max_repeat_stop (k : pystr -> option pystr) (hi : option nat) (v : pystr) :
  truthy (k v) = true -> truthy (max_repeat a 0 hi k v) = true.
Proof.
  intros Hk. destruct v as [|c v]; simpl; [exact Hk|].
  destruct (atom_matches a c && may_take hi)%bool; [|exact Hk].
  destruct (max_repeat a 0 (dec hi) k v); [reflexivity|exact Hk].
Qed.

Lemma max_repeat_complete (k : pystr -> option pystr) (u v : pystr) :
  forall lo hi,
    run_of (Repeat a lo hi) u ->
    truthy (k v) = true ->
    truthy (max_repeat a lo hi k (u ++ v)) = true.
Proof.
  unfold run_of; simpl.
  induction u as [|c u IH]; intros lo hi (Hu & Hlo & Hhi) Hk.
  - simpl in Hlo. assert (lo = 0) as -> by lia. now apply max_repeat_stop.
  - simpl in Hu. apply andb_true_iff in Hu as [Ha Hu].
    simpl. rewrite Ha.
    assert (may_take hi = true) as ->.
    { destruct hi as [[|h]|]; simpl in *; auto; lia. }
    simpl.
    assert (Hrec : truthy (max_repeat a (pred lo) (dec hi) k (u ++ v)) = true).
    { apply IH; auto. repeat split; auto.
      - simpl in Hlo. lia.
      - destruct hi as [h|]; simpl in *; auto; lia. }
    destruct (max_repeat a (pred lo) (dec hi) k (u ++ v));
      [reflexivity|discriminate].
Qed.

End ReFacts.

Lemma match_at_sound (p : pattern) :
  forall s r, match_at p s = Some r -> exists m, s = m ++ r /\ in_lang p m.
Proof.
  induction p as [|[a lo hi] p IH]; intros s r H; simpl in H.
  - injection H as ->. now exists [].
  - apply max_repeat_sound in H as (u & v & -> & Hu & Hk).
    destruct (IH _ _ Hk) as (m & -> & Hm).
    exists (u ++ m). rewrite app_assoc. split; [reflexivity|].
    simpl. now exists u, m.
Qed.

Lemma match_at_complete (p : pattern) :
  forall m t, in_lang p m -> truthy (match_at p (m ++ t)) = true.
Proof.
  induction p as [|[a lo hi] p IH]; intros m t H; simpl in H.
  - subst. reflexivity.
  - destruct H as (u & v & -> & Hu & Hv). simpl.
    rewrite <- app_assoc. apply max_repeat_complete; auto.
Qed.

Lemma re_match_truthy (p : pattern) (s : pystr) :
  truthy (re_match p s) = truthy (match_at p s).
Proof. unfold re_match. now destruct (match_at p s). Qed.

(** [re.match] succeeds exactly when a prefix of the subject is a word
    of the pattern. *)
Lemma re_match_spec (p : pattern) (s : pystr) :
  truthy (re_match p s) = true <-> exists m t, s = m ++ t /\ in_lang p m.
Proof.
  rewrite re_match_truthy. split.
  - destruct (match_at p s) as [r|] eqn:H; [|discriminate]. intros _.
    apply match_at_sound in H as (m & -> & Hm). now exists m, r.
  - intros (m & t & -> & Hm). now apply match_at_complete.
Qed.

(** The text [m.group(0)] is a word of the pattern and lies at the start
    of the subject. *)
Lemma re_match_group0 (p : pattern) (s m : pystr) :
  re_match p s = Some m -> in_lang p m /\ exists t, s = m ++ t.
Proof.
  unfold re_match. destruct (match_at p s) as [r|] eqn:H; [|discriminate].
  intros E. injection E as <-.
  apply match_at_sound in H as (m & -> & Hm).
  rewrite length_app, Nat.add_sub.
  rewrite firstn_app, Nat.sub_diag, firstn_all. simpl. rewrite app_nil_r.
  split; [assumption|now exists r].
Qed.

Lemma re_match_extend (p : pattern) (r s : pystr) :
  truthy (re_match p r) = true -> truthy (re_match p (r ++ s)) = true.
Proof.
  rewrite !re_match_spec. intros (m & t & -> & Hm).
  exists m, (t ++ s). now rewrite app_assoc.
Qed.

(** Both patterns fix the character at index 7. *)
Lemma in_lang_index7 (x : ascii) (p : pattern) (m : pystr) :
  in_lang (times Digit 6 :: chr "_" :: chr x :: p) m ->
  nth_error m 7 = Some (ord x).
Proof.
  simpl. unfold run_of; simpl.
  intros (u & v & -> & (_ & Hu6 & Hu6') & u1 & v1 & -> & (_ & H1 & H1')
          & u2 & v2 & -> & (Hx & H2 & H2') & _).
  do 7 (destruct u as [|? u]; simpl in *; try lia).
  do 2 (destruct u1 as [|? u1]; simpl in *; try lia).
  destruct u2 as [|ch u2]; simpl in *; try lia.
  apply andb_true_iff in Hx as [Hx _]. apply N.eqb_eq in Hx. now subst.
Qed.

Lemma patterns_exclusive (run_id : pystr) :
  truthy (re_match miseq_regex run_id) = true ->
  truthy (re_match nextseq_regex run_id) = true ->
  False.
Proof.
  rewrite !re_match_spec.
  intros (m1 & t1 & E1 & H1) (m2 & t2 & E2 & H2).
  apply in_lang_index7 in H1, H2.
  assert (N1 : nth_error run_id 7 = Some (ord "M")).
  { rewrite E1, nth_error_app1; [assumption|].
    apply nth_error_Some. congruence. }
  assert (N2 : nth_error run_id 7 = Some (ord "V")).
  { rewrite E2, nth_error_app1; [assumption|].
    apply nth_error_Some. congruence. }
  rewrite N1 in N2. discriminate.
Qed.

(** ** Classification *)

Example classify_miseq :
  instrument_type (py "201203_M00325_0123_000000000-A1B2C") = Some (py "miseq").
Proof. vm_compute. reflexivity. Qed.

Example classify_nextseq :
  instrument_type (py "201203_VH00123_0045_AB12CD345") = Some (py "nextseq").
Proof. vm_compute. reflexivity. Qed.

Example classify_randomfolder : instrument_type (py "randomfolder") = None.
Proof. vm_compute. reflexivity. Qed.

(** [\d] takes the digits of any script: the date written in
    Arabic-Indic digits, U+0660 to U+0669, is matched as well. *)
Example classify_arabic_indic_date :
  instrument_type
    ([1634; 1632; 1633; 1634; 1632; 1635]%N
       ++ py "_M00325_0123_000000000-A1B2C")
  = Some (py "miseq").
Proof. vm_compute. reflexivity. Qed.

Lemma instrument_type_cases (run_id : pystr) :
  (instrument_type run_id = Some (py "miseq")
   /\ truthy (re_match miseq_regex run_id) = true
   /\ truthy (re_match nextseq_regex run_id) = false)
  \/ (instrument_type run_id = Some (py "nextseq")
      /\ truthy (re_match miseq_regex run_id) = false
      /\ truthy (re_match nextseq_regex run_id) = true)
  \/ (instrument_type run_id = None
      /\ truthy (re_match miseq_regex run_id) = false
      /\ truthy (re_match nextseq_regex run_id) = false).
Proof.
  unfold instrument_type.
  destruct (truthy (re_match miseq_regex run_id)) eqn:Hm;
    destruct (truthy (re_match nextseq_regex run_id)) eqn:Hn; auto.
  destruct (patterns_exclusive run_id Hm Hn).
Qed.

Lemma value_of_inj (t t' : InstrumentType) :
  value_of t = value_of t' -> t = t'.
Proof.
  destruct t, t'; intros H; try reflexivity; vm_compute in H; discriminate.
Qed.

(** C5.  The classifier is a total function of the run ID into the three
    instrument types, miseq, nextseq and unknown, the last being the
    value [None] of the script's variable: every run ID has exactly one
    type; the type is miseq exactly when the MiSeq pattern matches,
    nextseq exactly when the NextSeq pattern matches, unknown exactly
    when neither does; no run ID matches both patterns; and the three
    run IDs of the specification are of type miseq, nextseq and
    unknown. *)
Theorem classifier_total_exclusive :
  (forall run_id, exists! t, instrument_type run_id = value_of t)
  /\ (forall run_id,
         (instrument_type run_id = value_of miseq
          <-> truthy (re_match miseq_regex run_id) = true)
         /\ (instrument_type run_id = value_of nextseq
             <-> truthy (re_match nextseq_regex run_id) = true)
         /\ (instrument_type run_id = value_of unknown
             <-> truthy (re_match miseq_regex run_id) = false
                 /\ truthy (re_match nextseq_regex run_id) = false))
  /\ (forall run_id,
         ~ (truthy (re_match miseq_regex run_id) = true
            /\ truthy (re_match nextseq_regex run_id) = true))
  /\ instrument_type (py "201203_M00325_0123_000000000-A1B2C")
     = value_of miseq
  /\ instrument_type (py "201203_VH00123_0045_AB12CD345")
     = value_of nextseq
  /\ instrument_type (py "randomfolder") = value_of unknown.
Proof.
  split; [|split; [|split]].
  - intros run_id.
    destruct (instrument_type_cases run_id) as [(E & _)|[(E & _)|(E & _)]];
      [exists miseq|exists nextseq|exists unknown];
      (split; [exact E|]); intros t' Ht'; apply value_of_inj;
      rewrite <- Ht'; symmetry; exact E.
  - intros run_id.
    destruct (instrument_type_cases run_id)
      as [(E & Hm & Hn)|[(E & Hm & Hn)|(E & Hm & Hn)]];
      rewrite E, Hm, Hn;
      (split; [|split]); (split; [intros X|intros X]);
      try reflexivity; try discriminate; try (now split);
      try (vm_compute in X; discriminate);
      try (destruct X; discriminate).
  - intros run_id [Hm Hn]. exact (patterns_exclusive run_id Hm Hn).
  - repeat split; vm_compute; reflexivity.
Qed.

Lemma instrument_type_extend (r s : pystr) :
  instrument_type r <> None ->
  instrument_type (r ++ s) = instrument_type r.
Proof.
  intros Hr.
  destruct (instrument_type_cases r) as [(E & Hm & _)|[(E & _ & Hn)|(E & _)]];
    [| |contradiction].
  - rewrite E. unfold instrument_type.
    now rewrite (re_match_extend _ _ s Hm).
  - rewrite E. apply (re_match_extend _ _ s) in Hn.
    destruct (instrument_type_cases (r ++ s))
      as [(_ & _ & Hn')|[(E' & _)|(_ & _ & Hn')]]; congruence.
Qed.

(** C6.  Matching is anchored at the start of the run ID and at the start
    only.  A run ID that is classified keeps its class under every
    suffix appended to it.  A pattern matches exactly when some prefix of
    the run ID, from index 0, is a word of the pattern; the matched text
    is such a prefix, so an occurrence of a pattern further inside the
    string is no match, as for a MiSeq run ID behind one extra
    character. *)
Theorem match_anchored_at_start :
  (forall r s,
      instrument_type r <> None ->
      instrument_type (r ++ s) = instrument_type r)
  /\ (forall p r,
         truthy (re_match p r) = true
         <-> exists m t, r = m ++ t /\ in_lang p m)
  /\ (forall p r m,
         re_match p r = Some m -> in_lang p m /\ exists t, r = m ++ t)
  /\ instrument_type (py "201203_M00325_0123_000000000-A1B2C_rerun.old")
     = Some (py "miseq")
  /\ instrument_type (py "201203_VH00123_0045_AB12CD345/tmp")
     = Some (py "nextseq")
  /\ instrument_type (py "x201203_M00325_0123_000000000-A1B2C") = None
  /\ instrument_type (py "run_201203_VH00123_0045_AB12CD345") = None.
Proof.
  split; [exact instrument_type_extend|].
  split; [exact re_match_spec|].
  split; [exact re_match_group0|].
  repeat split; vm_compute; reflexivity.
Qed.

(** ** UUIDs and their text *)

Section UuidFacts.

Open Scope Z_scope.

Lemma bits_above (x n i : Z) :
  0 <= x < 2 ^ n -> 0 <= n <= i -> Z.testbit x i = false.
Proof.
  intros Hx Hi. rewrite <- (Z.mod_small x (2 ^ n)) by assumption.
  now apply Z.mod_pow2_bits_high.
Qed.

Lemma below_pow2 (x n : Z) :
  0 <= n -> 0 <= x ->
  (forall i, n <= i -> Z.testbit x i = false) ->
  x < 2 ^ n.
Proof.
  intros Hn Hx Hbits.
  assert (E : x mod 2 ^ n = x).
  { apply Z.bits_inj'. intros i Hi.
    destruct (Z.lt_ge_cases i n) as [Hlt|Hge].
    - now apply Z.mod_pow2_bits_low.
    - rewrite Z.mod_pow2_bits_high by lia. symmetry. now apply Hbits. }
  rewrite <- E. apply Z.mod_pos_bound. now apply Z.pow_pos_nonneg.
Qed.

(** A version-4 UUID is a 128-bit number.  *)
Lemma UUID_v4_range (x : Z) :
  0 <= x < 2 ^ 128 -> 0 <= Uuid.UUID_v4 x < 2 ^ 128.
Proof.
  intros Hx. unfold Uuid.UUID_v4.
  assert (Hnn : 0 <= Z.lor (Z.land (Z.lor (Z.land x
                       (Z.lnot (Z.shiftl 49152 48))) (Z.shiftl 32768 48))
                       (Z.lnot (Z.shiftl 61440 64))) (Z.shiftl 4 76)).
  { apply Z.lor_nonneg. split; [|now vm_compute].
    apply Z.land_nonneg. left.
    apply Z.lor_nonneg. split; [|now vm_compute].
    apply Z.land_nonneg. left. apply Hx. }
  split; [exact Hnn|].
  apply below_pow2; [lia|exact Hnn|].
  intros i Hi.
  assert (Hr : 0 <= 128 <= i) by lia.
  rewrite Z.lor_spec, Z.land_spec, Z.lor_spec, Z.land_spec.
  rewrite (bits_above (x := x) Hx Hr).
  rewrite (bits_above (n := 128) (x := Z.shiftl 32768 48));
    [|split; now vm_compute|exact Hr].
  rewrite (bits_above (n := 128) (x := Z.shiftl 4 76));
    [|split; now vm_compute|exact Hr].
  reflexivity.
Qed.

Lemma hex_length (k : nat) : forall n, List.length (Uuid.hex k n) = k.
Proof.
  induction k as [|k IH]; intros n; simpl; [reflexivity|].
  rewrite length_app, IH. simpl. lia.
Qed.







End UuidFacts.

(** ** The command line *)

Section Command.

Lemma join_app (a b c : pystr) (x : codepoint) :
  join a ((x :: b) ++ c) = join a (x :: b) ++ c.
Proof.
  unfold join. simpl. rewrite !startswith_nil.
  destruct (N.eqb x sep && true)%bool; [reflexivity|].
  destruct (Str.eqb a [] || endswith a [sep])%bool;
    now rewrite <- ?app_assoc.
Qed.



(** The text [build_workflow_command] returns, and its one effect. *)
Lemma build_workflow_command_run (run_dir : pystr) (w : world) :
  build_workflow_command run_dir w
  = (Ok (py "nextflow run BCCDC-PHL/routine-qc -profile conda --cache ~/.conda/envs -r v0.3.2--run_dir "
           ++ run_dir ++ py " --instrument_type "
           ++ format (instrument_type (basename run_dir))
           ++ py " -work " ++ join run_dir (py "work-") ++ Uuid.str (next_uuid w)
           ++ py " --outdir " ++ join run_dir (py "RoutineQC")),
     after_draw w).
Proof.
  unfold build_workflow_command, bind, uuid4, ret.
  fold (next_uuid w). fold (after_draw w).
  change (py "work-" ++ Uuid.str (next_uuid w))
    with ((ord "w" :: py "ork-") ++ Uuid.str (next_uuid w)).
  rewrite join_app. rewrite <- !app_assoc. reflexivity.
Qed.

End Command.

(** C2, as the specification has it, fails: the run ID [randomfolder]
    matches neither pattern, and the command built for
    [/data/randomfolder] has no [--instrument_type unknown] in it. *)
Lemma unclassified_run_not_rendered_unknown :
  truthy (re_match miseq_regex (basename (py "/data/randomfolder"))) = false
  /\ truthy (re_match nextseq_regex (basename (py "/data/randomfolder"))) = false
  /\ fst (build_workflow_command (py "/data/randomfolder") sample_world)
     = Ok (py "nextflow run BCCDC-PHL/routine-qc -profile conda --cache ~/.conda/envs -r v0.3.2--run_dir /data/randomfolder --instrument_type None -work /data/randomfolder/work-00000000-0000-4000-8000-00000000004d --outdir /data/randomfolder/RoutineQC")
  /\ forall c,
       fst (build_workflow_command (py "/data/randomfolder") sample_world) = Ok c ->
       contains c (py "--instrument_type unknown") = false.
Proof.
  repeat split; try (vm_compute; reflexivity).
  intros c H. vm_compute in H. injection H as <-. vm_compute. reflexivity.
Qed.

(** C3 on the script.  Whatever the run directory, the command starts
    with the version and the [--run_dir] flag run together, since the two
    halves of the f-string are joined with nothing between them; for the
    MiSeq run of the sample directory the words of the command are the
    sixteen below, [v0.3.2--run_dir] being one of them and [--run_dir]
    none. *)
Theorem version_and_run_dir_flag_run_together :
  (forall run_dir w,
      exists c,
        build_workflow_command run_dir w = (Ok c, after_draw w)
        /\ startswith c (py "nextflow run BCCDC-PHL/routine-qc -profile conda --cache ~/.conda/envs -r v0.3.2--run_dir ") = true)
  /\ exists c,
       fst (build_workflow_command
              (py "/data/201203_M00325_0123_000000000-A1B2C") sample_world)
       = Ok c
       /\ words c
          = [py "nextflow"; py "run"; py "BCCDC-PHL/routine-qc";
             py "-profile"; py "conda"; py "--cache"; py "~/.conda/envs";
             py "-r"; py "v0.3.2--run_dir";
             py "/data/201203_M00325_0123_000000000-A1B2C";
             py "--instrument_type"; py "miseq"; py "-work";
             py "/data/201203_M00325_0123_000000000-A1B2C/work-00000000-0000-4000-8000-00000000004d";
             py "--outdir";
             py "/data/201203_M00325_0123_000000000-A1B2C/RoutineQC"]
       /\ existsb (Str.eqb (py "--run_dir")) (words c) = false.
Proof.
  split.
  - intros run_dir w. eexists. split.
    + apply build_workflow_command_run.
    + apply startswith_app.
  - eexists. split; [vm_compute; reflexivity|].
    split; vm_compute; reflexivity.
Qed.

Lemma next_uuid_range (w : world) : (0 <= next_uuid w < 2 ^ 128)%Z.
Proof.
  unfold next_uuid. apply UUID_v4_range.
  apply Z.mod_pos_bound. now vm_compute.
Qed.


(** ** Paths into the directory tree *)

Unset Implicit Arguments.

Section Paths.

Lemma walk_app (a b : list pystr) :
  forall anc cur,
    walk anc cur (a ++ b)
    = match walk anc cur a with
      | Some (anc', cur') => walk anc' cur' b
      | None => None
      end.
Proof.
  induction a as [|c a IH]; intros anc cur; simpl; [reflexivity|].
  destruct cur as [|entries]; [reflexivity|].
  destruct (Str.eqb c [] || Str.eqb c (py "."))%bool; [apply IH|].
  destruct (Str.eqb c (py "..")).
  - destruct anc; apply IH.
  - destruct (lookup c entries); [apply IH|reflexivity].
Qed.

Lemma walk_empty_component (anc anc' : list node) (cur cur' : node) :
  walk anc cur [[]] = Some (anc', cur') -> anc' = anc /\ cur' = cur.
Proof.
  simpl. destruct cur; [discriminate|]. simpl.
  intros H. injection H as <- <-. now split.
Qed.

Lemma plain_name_parts (n : pystr) :
  plain_name n = true ->
  Str.eqb n [] = false /\ existsb (N.eqb sep) n = false
  /\ Str.eqb n (py ".") = false /\ Str.eqb n (py "..") = false.
Proof.
  unfold plain_name. rewrite !andb_true_iff, !negb_true_iff. tauto.
Qed.

Lemma plain_name_relative (n : pystr) :
  plain_name n = true -> startswith n [sep] = false.
Proof.
  intros H. apply plain_name_parts in H as (_ & Hs & _).
  destruct n as [|x n]; [reflexivity|].
  cbn [existsb] in Hs. apply orb_false_iff in Hs as [Hx _].
  cbn [startswith]. rewrite N.eqb_sym, Hx. reflexivity.
Qed.

Lemma walk_plain (anc : list node) (cur : node) (n : pystr) :
  plain_name n = true ->
  walk anc cur [n]
  = match cur with
    | File => None
    | Dir entries =>
        match lookup n entries with
        | Some x => Some (cur :: anc, x)
        | None => None
        end
    end.
Proof.
  intros H. apply plain_name_parts in H as (H0 & _ & H1 & H2).
  simpl. destruct cur as [|entries]; [reflexivity|].
  rewrite H0, H1, H2. simpl. now destruct (lookup n entries).
Qed.

(** Resolving [os.path.join(p, n)] is resolving [p] and then taking one
    more step, to the entry [n]. *)
Lemma resolve_join (fs : filesystem) (p n : pystr) (anc : list node) (cur : node) :
  resolve fs p = Some (anc, cur) ->
  plain_name n = true ->
  resolve fs (join p n) = walk anc cur [n].
Proof.
  intros Hp Hn.
  pose proof (plain_name_relative n Hn) as Hrel.
  pose proof (plain_name_parts n Hn) as (_ & Hsep & _).
  destruct p as [|c p]; [discriminate|].
  unfold join. rewrite Hrel.
  change (Str.eqb (c :: p) []) with false. simpl orb.
  unfold resolve in Hp.
  destruct (endswith (c :: p) [sep]) eqn:He.
  - apply endswith_spec in He as [q Hq].
    assert (Hj : (c :: p) ++ n = c :: (p ++ n)) by reflexivity.
    rewrite Hj. unfold resolve. rewrite <- Hj. clear Hj.
    rewrite Hq in *. rewrite <- app_assoc. simpl app at 2.
    rewrite split_app_sep in Hp. rewrite split_app_sep.
    rewrite (split_plain _ _ Hsep). simpl split in Hp.
    rewrite app_assoc, walk_app in Hp. rewrite app_assoc, walk_app.
    destruct (walk [] (root fs)
                   ((if N.eqb c sep then [] else cwd fs) ++ split sep q))
      as [[anc0 cur0]|]; [|discriminate].
    apply walk_empty_component in Hp as [-> ->]. reflexivity.
  - assert (Hj : (c :: p) ++ [sep] ++ n = c :: (p ++ [sep] ++ n))
      by reflexivity.
    rewrite Hj. unfold resolve. rewrite <- Hj. clear Hj.
    change ([sep] ++ n) with (sep :: n).
    rewrite split_app_sep, (split_plain _ _ Hsep).
    rewrite app_assoc, walk_app, Hp. reflexivity.
Qed.

Lemma lookup_In (entries : list (pystr * node)) (n : pystr) (x : node) :
  distinct (map fst entries) = true ->
  In (n, x) entries ->
  lookup n entries = Some x.
Proof.
  induction entries as [|[m y] entries IH]; simpl; [contradiction|].
  intros Hd [E|Hin].
  - injection E as -> ->. now rewrite eqb_refl.
  - apply andb_true_iff in Hd as [Hm Hd].
    destruct (Str.eqb m n) eqn:E; [|now apply IH].
    apply eqb_spec in E. subst m.
    apply negb_true_iff in Hm.
    assert (Hex : existsb (Str.eqb n) (map fst entries) = true).
    { apply existsb_exists. exists n. split; [|apply eqb_refl].
      apply in_map_iff. now exists (n, x). }
    congruence.
Qed.

Lemma wf_entries_parts (entries : list (pystr * node)) :
  wf_entries entries = true ->
  distinct (map fst entries) = true
  /\ forall n x, In (n, x) entries -> plain_name n = true.
Proof.
  unfold wf_entries. intros H. apply andb_true_iff in H as [Hp Hd].
  split; [assumption|]. intros n x Hin.
  rewrite forallb_forall in Hp. apply Hp.
  apply in_map_iff. now exists (n, x).
Qed.

(** Inside a listed entry of a resolved directory, a name exists as a
    path exactly when the entry is a directory that holds the name. *)
Lemma path_exists_in_entry
      (fs : filesystem) (parent n m : pystr) (anc : list node)
      (entries : list (pystr * node)) (x : node) :
  resolve fs parent = Some (anc, Dir entries) ->
  wf_entries entries = true ->
  In (n, x) entries ->
  plain_name m = true ->
  path_exists fs (join (join parent n) m) = has_entry m x.
Proof.
  intros Hp Hwf Hin Hm.
  apply wf_entries_parts in Hwf as [Hd Hpl].
  assert (Hn : resolve fs (join parent n) = Some (Dir entries :: anc, x)).
  { rewrite (resolve_join _ _ _ _ _ Hp (Hpl _ _ Hin)), walk_plain by eauto.
    now rewrite (lookup_In _ _ _ Hd Hin). }
  unfold path_exists, stat.
  rewrite (resolve_join _ _ _ _ _ Hn Hm), walk_plain by assumption.
  destruct x as [|inner]; [reflexivity|].
  simpl. now destruct (lookup m inner).
Qed.

Lemma join_inj (parent n n' : pystr) :
  plain_name n = true -> plain_name n' = true ->
  join parent n = join parent n' -> n = n'.
Proof.
  intros Hn Hn'. unfold join.
  rewrite (plain_name_relative _ Hn), (plain_name_relative _ Hn').
  destruct (Str.eqb parent [] || endswith parent [sep])%bool; intros H.
  - now apply app_inv_head in H.
  - apply app_inv_head in H. now injection H.
Qed.

End Paths.

(** ** The tasks as functions of the world *)

Section Tasks.

Lemma scan_loop (w : world) (entries : list DirEntry) :
  forall acc,
    for_in entries
      (fun f subdirectories =>
         if is_dir f then
           e <- os_path_exists (join (path f) (py "upload_complete.json")) ;;
           if e : bool then ret (subdirectories ++ [path f])
           else ret subdirectories
         else ret subdirectories)
      acc w
    = (Ok (acc ++ map path
                 (filter (fun f =>
                            is_dir f
                            && path_exists (fs w)
                                           (join (path f) upload_complete))
                         entries)),
       w).
Proof.
  induction entries as [|f entries IH]; intros acc.
  - cbn [for_in filter map]. now rewrite app_nil_r.
  - cbn [for_in filter]. unfold bind at 1.
    destruct (is_dir f); cbn [andb].
    + unfold bind at 1, os_path_exists at 1. fold upload_complete.
      destruct (path_exists (fs w) (join (path f) upload_complete)).
      * unfold ret at 1. fold upload_complete in IH.
        rewrite IH, <- app_assoc. reflexivity.
      * unfold ret at 1. apply IH.
    + unfold ret at 1. apply IH.
Qed.

(** The scanner is a filter over the directory listing and leaves the
    world as it found it. *)
Lemma list_subdirectories_eq (parent_dir : pystr) (w : world) :
  list_subdirectories parent_dir w
  = (match scandir (fs w) parent_dir with
     | Some entries =>
         Ok (map path
               (filter (fun f =>
                          is_dir f
                          && path_exists (fs w) (join (path f) upload_complete))
                       entries))
     | None => Raise OSError
     end, w).
Proof.
  unfold list_subdirectories, bind at 1, os_scandir.
  destruct (scandir (fs w) parent_dir) as [entries|]; [|reflexivity].
  now rewrite scan_loop.
Qed.

(** So is the filter. *)
Lemma filter_analyzed_runs_eq (xs : list pystr) (w : world) :
  filter_analyzed_runs xs w
  = (Ok (filter (fun x => negb (path_exists (fs w) (join x RoutineQC))) xs),
     w).
Proof.
  unfold filter_analyzed_runs. fold RoutineQC.
  induction xs as [|x xs IH]; [reflexivity|].
  cbn [FilterTask filter]. unfold bind at 1 2, os_path_exists at 1, ret at 1.
  unfold bind at 1. rewrite IH. unfold ret.
  now destruct (path_exists (fs w) (join x RoutineQC)).
Qed.

(** The mapped command builder returns one command per run directory, in
    order, and touches nothing but the source of random bytes. *)
Lemma map_build_workflow_command (xs : list pystr) :
  forall w, exists cs w',
    map_task build_workflow_command xs w = (Ok cs, w')
    /\ List.length cs = List.length xs
    /\ fs w' = fs w /\ spawned w' = spawned w /\ printed w' = printed w
    /\ urandom w' = urandom w
    /\ urandom_calls w' = List.length xs + urandom_calls w.
Proof.
  induction xs as [|x xs IH]; intros w.
  - exists [], w. repeat split; reflexivity.
  - cbn [map_task]. unfold bind at 1.
    rewrite build_workflow_command_run.
    destruct (IH (after_draw w)) as (cs & w' & E & L & F & S & P & U & C).
    unfold bind at 1. rewrite E. unfold ret.
    eexists. eexists. split; [reflexivity|].
    simpl. rewrite L, F, S, P, U, C. simpl. repeat split. lia.
Qed.

(** One run of the flow, when the root can be listed ... *)
Lemma run_once_listed (parent_dir : pystr) (interval : Z) (w : world)
      (entries : list DirEntry) :
  scandir (fs w) parent_dir = Some entries ->
  exists cs w',
    run_once (build_flow parent_dir interval) w
    = (Ok (FlowState
             (map path
                (filter (fun f =>
                           is_dir f
                           && path_exists (fs w) (join (path f) upload_complete))
                        entries))
             (filter (fun x => negb (path_exists (fs w) (join x RoutineQC)))
                (map path
                   (filter (fun f =>
                              is_dir f
                              && path_exists (fs w)
                                             (join (path f) upload_complete))
                           entries)))
             cs),
       w')
    /\ List.length cs
       = List.length
           (filter (fun x => negb (path_exists (fs w) (join x RoutineQC)))
              (map path
                 (filter (fun f =>
                            is_dir f
                            && path_exists (fs w)
                                           (join (path f) upload_complete))
                         entries)))
    /\ fs w' = fs w /\ spawned w' = spawned w /\ printed w' = printed w.
Proof.
  intros Hs. unfold run_once, build_flow, flow_tasks.
  unfold bind at 1. rewrite list_subdirectories_eq, Hs.
  unfold bind at 1. rewrite filter_analyzed_runs_eq.
  unfold bind at 1.
  match goal with
  | |- context [map_task build_workflow_command ?xs w] =>
      destruct (map_build_workflow_command xs w)
        as (cs & w' & E & L & F & S & P & _)
  end.
  rewrite E. unfold ret. exists cs, w'. repeat split; assumption.
Qed.

(** ... and when it cannot. *)
Lemma run_once_unlisted (parent_dir : pystr) (interval : Z) (w : world) :
  scandir (fs w) parent_dir = None ->
  run_once (build_flow parent_dir interval) w = (Raise OSError, w).
Proof.
  intros Hs. unfold run_once, build_flow, flow_tasks.
  unfold bind at 1. now rewrite list_subdirectories_eq, Hs.
Qed.

End Tasks.

(** ** One pass over a listed root *)

Section Pass.

Variable w : world.
Variable parent_dir : pystr.
Variable anc : list node.
Variable entries : list (pystr * node).

Hypothesis Hroot : resolve (fs w) parent_dir = Some (anc, Dir entries).
Hypothesis Hwf : wf_entries entries = true.

Let run_path (e : pystr * node) : pystr := join parent_dir (fst e).

Let entry_of (e : pystr * node) : DirEntry :=
  Entry (fst e) (join parent_dir (fst e)) (isdir (snd e)).

Lemma scandir_root : scandir (fs w) parent_dir = Some (map entry_of entries).
Proof. unfold scandir, stat. now rewrite Hroot. Qed.

Lemma plain_upload_complete : plain_name upload_complete = true.
Proof. vm_compute. reflexivity. Qed.

Lemma plain_RoutineQC : plain_name RoutineQC = true.
Proof. vm_compute. reflexivity. Qed.

Lemma complete_entries (l : list (pystr * node)) :
  incl l entries ->
  map path
      (filter (fun f =>
                 is_dir f && path_exists (fs w) (join (path f) upload_complete))
              (map entry_of l))
  = map run_path (filter (fun e => has_entry upload_complete (snd e)) l).
Proof.
  induction l as [|[n x] l IH]; intros Hl; [reflexivity|].
  assert (Hin : In (n, x) entries) by (apply Hl; now left).
  assert (Hl' : incl l entries) by (intros e He; apply Hl; now right).
  cbn [map filter entry_of path is_dir fst snd].
  rewrite (path_exists_in_entry _ _ _ _ _ _ _ Hroot Hwf Hin
                                plain_upload_complete).
  destruct x as [|inner]; [exact (IH Hl')|].
  cbn [isdir andb].
  destruct (has_entry upload_complete (Dir inner)); cbn [map];
    now rewrite (IH Hl').
Qed.

Lemma unanalyzed_entries (l : list (pystr * node)) :
  incl l entries ->
  filter (fun x => negb (path_exists (fs w) (join x RoutineQC)))
         (map run_path l)
  = map run_path (filter (fun e => negb (has_entry RoutineQC (snd e))) l).
Proof.
  induction l as [|[n x] l IH]; intros Hl; [reflexivity|].
  assert (Hin : In (n, x) entries) by (apply Hl; now left).
  assert (Hl' : incl l entries) by (intros e He; apply Hl; now right).
  specialize (IH Hl'). unfold run_path in *.
  cbn [map filter fst snd].
  rewrite (path_exists_in_entry _ _ _ _ _ _ _ Hroot Hwf Hin plain_RoutineQC).
  destruct (has_entry RoutineQC x); cbn [negb map fst]; now rewrite IH.
Qed.

Lemma filter_filter {A} (f g : A -> bool) (l : list A) :
  filter g (filter f l) = filter (fun a => f a && g a) l.
Proof.
  induction l as [|a l IH]; [reflexivity|]. simpl.
  destruct (f a); simpl; [destruct (g a)|]; now rewrite IH.
Qed.

(** What a pass computes over a listed root, in terms of the tree. *)
Lemma run_once_root (interval : Z) :
  exists cs w',
    run_once (build_flow parent_dir interval) w
    = (Ok (FlowState
             (map run_path
                  (filter (fun e => has_entry upload_complete (snd e)) entries))
             (map run_path (filter (fun e => eligible (snd e)) entries))
             cs),
       w')
    /\ List.length cs
       = List.length (map run_path (filter (fun e => eligible (snd e)) entries))
    /\ fs w' = fs w /\ spawned w' = spawned w /\ printed w' = printed w.
Proof.
  destruct (run_once_listed parent_dir interval w _ scandir_root)
    as (cs & w' & E & L & F).
  assert (Hsub : incl (filter (fun e => has_entry upload_complete (snd e))
                              entries) entries).
  { intros e He. now apply filter_In in He. }
  rewrite (complete_entries _ (incl_refl _)) in E, L.
  rewrite (unanalyzed_entries _ Hsub), filter_filter in E, L.
  exists cs, w'. split; [exact E|]. split; [exact L|exact F].
Qed.

Lemma In_run_path (P : node -> bool) (n : pystr) (x : node) :
  In (n, x) entries ->
  (In (join parent_dir n) (map run_path (filter (fun e => P (snd e)) entries))
   <-> P x = true).
Proof.
  intros Hin.
  destruct (wf_entries_parts _ Hwf) as [Hd Hpl].
  rewrite in_map_iff. split.
  - intros ([n' x'] & Hj & Hf). apply filter_In in Hf as [Hin' HP].
    unfold run_path in Hj. simpl in Hj, HP.
    apply join_inj in Hj; eauto. subst n'.
    pose proof (lookup_In _ _ _ Hd Hin) as L1.
    pose proof (lookup_In _ _ _ Hd Hin') as L2.
    congruence.
  - intros HP. exists (n, x). split; [reflexivity|].
    apply filter_In. now split.
Qed.

End Pass.

Lemma In_combine {A B} (l : list A) (l' : list B) (x : A) :
  List.length l' = List.length l ->
  (In x l <-> exists y, In (x, y) (combine l l')).
Proof.
  intros Hlen. split.
  - revert l' Hlen. induction l as [|a l IH]; intros [|b l'] Hlen Hin;
      simpl in *; try contradiction; try discriminate.
    destruct Hin as [->|Hin].
    + exists b. now left.
    + injection Hlen as Hlen. destruct (IH _ Hlen Hin) as [y Hy].
      exists y. now right.
  - intros [y Hy]. eapply in_combine_l, Hy.
Qed.

(** ** The pass, with line 26 mended *)

(** With line 26 mended: for a root path that resolves to a directory,
    the scanner returns, without changing anything, the paths
    [os.path.join(parent_dir, name)] of exactly those entries of the root
    that are directories and hold an entry [upload_complete.json]: an
    entry of the root is in the result if and only if it is such a
    directory, so a directory without the marker and an entry that is not
    a directory are left out; and every path in the result is an entry
    of the root itself, never something further down. *)
Theorem scanner_returns_complete_children
        (parent_dir : pystr) (w : world) (anc : list node)
        (entries : list (pystr * node)) :
  resolve (fs w) parent_dir = Some (anc, Dir entries) ->
  wf_entries entries = true ->
  exists found,
    list_subdirectories parent_dir w = (Ok found, w)
    /\ found
       = map (fun e => join parent_dir (fst e))
             (filter (fun e => isdir (snd e)
                               && has_entry upload_complete (snd e))
                     entries)
    /\ (forall n x,
           In (n, x) entries ->
           (In (join parent_dir n) found
            <-> isdir x = true /\ has_entry upload_complete x = true))
    /\ (forall d,
           In d found ->
           exists n x, In (n, x) entries /\ d = join parent_dir n).
Proof.
  intros Hroot Hwf. eexists. split; [|split; [reflexivity|split]].
  - rewrite list_subdirectories_eq, (scandir_root _ _ _ _ Hroot).
    rewrite (complete_entries _ _ _ _ Hroot Hwf _ (incl_refl _)).
    do 3 f_equal. apply filter_ext. intros [n [|inner]]; reflexivity.
  - intros n x Hin.
    rewrite (In_run_path parent_dir entries Hwf
               (fun x => isdir x && has_entry upload_complete x) n x Hin).
    apply andb_true_iff.
  - intros d Hd. apply in_map_iff in Hd as ([n x] & <- & Hf).
    apply filter_In in Hf as [Hin _]. now exists n, x.
Qed.

Lemma scanner_returns_complete_children_witness :
  exists found,
    list_subdirectories (py "/data") sample_world = (Ok found, sample_world)
    /\ found
       = map (fun e => join (py "/data") (fst e))
             (filter (fun e => isdir (snd e)
                               && has_entry upload_complete (snd e))
                     sample_runs)
    /\ (forall n x,
           In (n, x) sample_runs ->
           (In (join (py "/data") n) found
            <-> isdir x = true /\ has_entry upload_complete x = true))
    /\ (forall d,
           In d found ->
           exists n x, In (n, x) sample_runs /\ d = join (py "/data") n).
Proof.
  apply (scanner_returns_complete_children
           (py "/data") sample_world [sample_root] sample_runs);
    vm_compute; reflexivity.
Defined.

(** With line 26 mended: in one pass over a listed root, a command is
    built for a run directory of the root exactly when the directory holds
    [upload_complete.json] and holds no [RoutineQC]: none is built for a
    run directory without the completion marker, and none for one with
    the analysis marker, with or without the completion marker.  The
    commands are as many as the runs to analyse, one each. *)
Theorem command_built_iff_complete_and_unanalyzed
        (parent_dir : pystr) (interval : Z) (w : world) (anc : list node)
        (entries : list (pystr * node)) :
  resolve (fs w) parent_dir = Some (anc, Dir entries) ->
  wf_entries entries = true ->
  exists st w',
    run_once (build_flow parent_dir interval) w = (Ok st, w')
    /\ List.length (cmd st) = List.length (subdirs_to_analyze st)
    /\ (forall n x,
           In (n, x) entries ->
           ((exists c, In (join parent_dir n, c) (built st))
            <-> has_entry upload_complete x = true
                /\ has_entry RoutineQC x = false))
    /\ (forall n x,
           In (n, x) entries ->
           has_entry upload_complete x = false ->
           forall c, ~ In (join parent_dir n, c) (built st))
    /\ (forall n x,
           In (n, x) entries ->
           has_entry RoutineQC x = true ->
           forall c, ~ In (join parent_dir n, c) (built st)).
Proof.
  intros Hroot Hwf.
  destruct (run_once_root w parent_dir anc entries Hroot Hwf interval)
    as (cs & w' & E & L & _).
  eexists. exists w'. split; [exact E|]. split; [exact L|].
  assert (Hiff : forall n x,
             In (n, x) entries ->
             ((exists c,
                  In (join parent_dir n, c)
                     (combine
                        (map (fun e => join parent_dir (fst e))
                             (filter (fun e => eligible (snd e)) entries))
                        cs))
              <-> has_entry upload_complete x = true
                  /\ has_entry RoutineQC x = false)).
  { intros n x Hin. rewrite <- (In_combine _ _ _ L).
    rewrite (In_run_path parent_dir entries Hwf eligible n x Hin).
    unfold eligible. rewrite andb_true_iff, negb_true_iff. reflexivity. }
  split; [exact Hiff|]. split.
  - intros n x Hin Hno c Hc.
    assert (H : has_entry upload_complete x = true
                /\ has_entry RoutineQC x = false)
      by (apply (Hiff n x Hin); now exists c).
    destruct H. congruence.
  - intros n x Hin Hqc c Hc.
    assert (H : has_entry upload_complete x = true
                /\ has_entry RoutineQC x = false)
      by (apply (Hiff n x Hin); now exists c).
    destruct H. congruence.
Qed.

Lemma command_built_iff_complete_and_unanalyzed_witness :
  exists st w',
    run_once (build_flow (py "/data") 10) sample_world = (Ok st, w')
    /\ List.length (cmd st) = List.length (subdirs_to_analyze st)
    /\ (forall n x,
           In (n, x) sample_runs ->
           ((exists c, In (join (py "/data") n, c) (built st))
            <-> has_entry upload_complete x = true
                /\ has_entry RoutineQC x = false))
    /\ (forall n x,
           In (n, x) sample_runs ->
           has_entry upload_complete x = false ->
           forall c, ~ In (join (py "/data") n, c) (built st))
    /\ (forall n x,
           In (n, x) sample_runs ->
           has_entry RoutineQC x = true ->
           forall c, ~ In (join (py "/data") n, c) (built st)).
Proof.
  apply (command_built_iff_complete_and_unanalyzed
           (py "/data") 10 sample_world [sample_root] sample_runs);
    vm_compute; reflexivity.
Defined.

(** The sample directory: the pass builds the commands of [runA] and of
    the MiSeq run, and of no other entry. *)
Example sample_pass :
  exists st w',
    run_once (build_flow (py "/data") 10) sample_world = (Ok st, w')
    /\ subdirs st
       = [py "/data/runA"; py "/data/runC";
          py "/data/201203_M00325_0123_000000000-A1B2C"]
    /\ map fst (built st)
       = [py "/data/runA"; py "/data/201203_M00325_0123_000000000-A1B2C"].
Proof.
  eexists. eexists. split; [vm_compute; reflexivity|].
  split; vm_compute; reflexivity.
Qed.

(** With line 26 mended: both marker checks are [os.path.exists] on a
    joined path and never look at what kind of entry the path names.  In
    a run directory
    of a listed root, an entry [RoutineQC] of any kind, a regular file
    as much as a directory, keeps the run out of the runs to analyse and
    out of the commands; an entry [upload_complete.json] of any kind, a
    directory as much as a regular file, puts the run among the scanned
    subdirectories and, when there is no [RoutineQC], among the runs to
    analyse. *)
Theorem markers_checked_by_name_only
        (parent_dir : pystr) (interval : Z) (w : world) (anc : list node)
        (entries : list (pystr * node)) (n : pystr)
        (inner : list (pystr * node)) :
  resolve (fs w) parent_dir = Some (anc, Dir entries) ->
  wf_entries entries = true ->
  In (n, Dir inner) entries ->
  exists st w',
    run_once (build_flow parent_dir interval) w = (Ok st, w')
    /\ (forall kind : node,
           lookup RoutineQC inner = Some kind ->
           ~ In (join parent_dir n) (subdirs_to_analyze st)
           /\ forall c, ~ In (join parent_dir n, c) (built st))
    /\ (forall kind : node,
           lookup upload_complete inner = Some kind ->
           In (join parent_dir n) (subdirs st)
           /\ (lookup RoutineQC inner = None ->
               In (join parent_dir n) (subdirs_to_analyze st)))
    /\ (lookup RoutineQC inner = Some File
        \/ (exists l, lookup RoutineQC inner = Some (Dir l)) ->
        ~ In (join parent_dir n) (subdirs_to_analyze st))
    /\ (lookup upload_complete inner = Some File
        \/ (exists l, lookup upload_complete inner = Some (Dir l)) ->
        In (join parent_dir n) (subdirs st)).
Proof.
  intros Hroot Hwf Hin.
  destruct (run_once_root w parent_dir anc entries Hroot Hwf interval)
    as (cs & w' & E & L & _).
  eexists. exists w'. split; [exact E|].
  cbn [subdirs subdirs_to_analyze built cmd].
  pose proof (In_run_path parent_dir entries Hwf eligible n _ Hin) as Hel.
  pose proof (In_run_path parent_dir entries Hwf
                (has_entry upload_complete) n _ Hin) as Hup.
  unfold eligible in Hel. cbn [has_entry] in Hel, Hup.
  assert (Hqc : forall kind, lookup RoutineQC inner = Some kind ->
                ~ In (join parent_dir n)
                     (map (fun e => join parent_dir (fst e))
                          (filter (fun e => eligible (snd e)) entries))).
  { intros kind Hk Hn. apply Hel in Hn. rewrite Hk in Hn.
    simpl in Hn. now rewrite andb_false_r in Hn. }
  assert (Hm : forall kind, lookup upload_complete inner = Some kind ->
               In (join parent_dir n)
                  (map (fun e => join parent_dir (fst e))
                       (filter (fun e => has_entry upload_complete (snd e))
                               entries))).
  { intros kind Hk. apply Hup. now rewrite Hk. }
  split; [|split; [|split]].
  - intros kind Hk. split; [exact (Hqc kind Hk)|].
    intros c Hc. apply (Hqc kind Hk). eapply in_combine_l, Hc.
  - intros kind Hk. split; [exact (Hm kind Hk)|].
    intros Hno. apply Hel. now rewrite Hk, Hno.
  - intros [Hk|[l Hk]]; eapply Hqc, Hk.
  - intros [Hk|[l Hk]]; eapply Hm, Hk.
Qed.

(** A root [/data] with two runs whose markers have the other kind: in
    [runF] the completion marker is a file and [RoutineQC] a regular
    file, in [runD] [upload_complete.json] is a directory. *)
Lemma markers_checked_by_name_only_witness :
  let odd_runs :=
    [(py "runF", Dir [(upload_complete, File); (RoutineQC, File)]);
     (py "runD", Dir [(upload_complete, Dir [])])] in
  let w :=
    World (Filesystem (Dir [(py "data", Dir odd_runs)]) [])
          (fun _ => 0%Z) 0 [] (fun _ => []) [] in
  exists st w',
    run_once (build_flow (py "/data") 10) w = (Ok st, w')
    /\ (forall kind : node,
           lookup RoutineQC [(upload_complete, File); (RoutineQC, File)]
           = Some kind ->
           ~ In (join (py "/data") (py "runF")) (subdirs_to_analyze st)
           /\ forall c, ~ In (join (py "/data") (py "runF"), c) (built st))
    /\ (forall kind : node,
           lookup upload_complete [(upload_complete, File); (RoutineQC, File)]
           = Some kind ->
           In (join (py "/data") (py "runF")) (subdirs st)
           /\ (lookup RoutineQC [(upload_complete, File); (RoutineQC, File)]
               = None ->
               In (join (py "/data") (py "runF")) (subdirs_to_analyze st)))
    /\ (lookup RoutineQC [(upload_complete, File); (RoutineQC, File)]
        = Some File
        \/ (exists l,
               lookup RoutineQC [(upload_complete, File); (RoutineQC, File)]
               = Some (Dir l)) ->
        ~ In (join (py "/data") (py "runF")) (subdirs_to_analyze st))
    /\ (lookup upload_complete [(upload_complete, File); (RoutineQC, File)]
        = Some File
        \/ (exists l,
               lookup upload_complete
                      [(upload_complete, File); (RoutineQC, File)]
               = Some (Dir l)) ->
        In (join (py "/data") (py "runF")) (subdirs st)).
Proof.
  intros odd_runs w.
  apply (markers_checked_by_name_only
           (py "/data") 10 w
           [Dir [(py "data", Dir odd_runs)]] odd_runs (py "runF")
           [(upload_complete, File); (RoutineQC, File)]).
  - vm_compute. reflexivity.
  - vm_compute. reflexivity.
  - simpl. left. reflexivity.
Defined.

(** With a regular file [RoutineQC] and a directory
    [upload_complete.json]: the first run is scanned and filtered out,
    the second is scanned and kept. *)
Example odd_markers_pass :
  let odd_runs :=
    [(py "runF", Dir [(upload_complete, File); (RoutineQC, File)]);
     (py "runD", Dir [(upload_complete, Dir [])])] in
  let w :=
    World (Filesystem (Dir [(py "data", Dir odd_runs)]) [])
          (fun _ => 0%Z) 0 [] (fun _ => []) [] in
  exists st w',
    run_once (build_flow (py "/data") 10) w = (Ok st, w')
    /\ subdirs st = [py "/data/runF"; py "/data/runD"]
    /\ subdirs_to_analyze st = [py "/data/runD"].
Proof.
  intros odd_runs w. eexists. eexists.
  split; [vm_compute; reflexivity|]. split; vm_compute; reflexivity.
Qed.

(** With line 26 mended: a pass reads the filesystem and writes nothing
    to it, and the runs it finds to analyse are a function of the
    filesystem and the
    root path alone: two worlds with the same filesystem give the same
    eligible runs, whatever else differs between them; so two passes in
    succession, the second starting where the first stopped, give the
    same eligible runs. *)
Theorem eligible_runs_rederived_each_pass (parent_dir : pystr) (interval : Z) :
  (forall w, fs (snd (run_once (build_flow parent_dir interval) w)) = fs w)
  /\ (forall w w',
         fs w = fs w' ->
         eligible_runs (fst (run_once (build_flow parent_dir interval) w))
         = eligible_runs (fst (run_once (build_flow parent_dir interval) w')))
  /\ (forall w,
         exists r1 r2 w2,
           flow_run (build_flow parent_dir interval) 2 w = ([r1; r2], w2)
           /\ eligible_runs r1 = eligible_runs r2
           /\ fs w2 = fs w).
Proof.
  assert (Hfs : forall w,
             fs (snd (run_once (build_flow parent_dir interval) w)) = fs w).
  { intros w. destruct (scandir (fs w) parent_dir) as [entries|] eqn:Hs.
    - destruct (run_once_listed parent_dir interval w entries Hs)
        as (cs & w' & E & _ & F & _).
      now rewrite E.
    - now rewrite (run_once_unlisted parent_dir interval w Hs). }
  assert (Hel : forall w w',
             fs w = fs w' ->
             eligible_runs (fst (run_once (build_flow parent_dir interval) w))
             = eligible_runs
                 (fst (run_once (build_flow parent_dir interval) w'))).
  { intros w w' Heq.
    destruct (scandir (fs w) parent_dir) as [entries|] eqn:Hs.
    - destruct (run_once_listed parent_dir interval w entries Hs)
        as (cs & w1 & E & _).
      rewrite Heq in Hs.
      destruct (run_once_listed parent_dir interval w' entries Hs)
        as (cs' & w1' & E' & _).
      rewrite E, E'. simpl. now rewrite Heq.
    - rewrite (run_once_unlisted parent_dir interval w Hs).
      rewrite Heq in Hs.
      now rewrite (run_once_unlisted parent_dir interval w' Hs). }
  split; [exact Hfs|]. split; [exact Hel|].
  intros w. cbn [flow_run].
  destruct (run_once (build_flow parent_dir interval) w) as [r1 w1] eqn:E1.
  destruct (run_once (build_flow parent_dir interval) w1) as [r2 w2] eqn:E2.
  exists r1, r2, w2. split; [reflexivity|].
  pose proof (Hfs w) as F1. rewrite E1 in F1. simpl in F1.
  pose proof (Hfs w1) as F2. rewrite E2 in F2. simpl in F2.
  split; [|congruence].
  pose proof (Hel w1 w F1) as H. rewrite E1, E2 in H. simpl in H.
  now symmetry.
Qed.

(** C4 on the script.  The flow has three tasks, the scanner, the filter
    and the mapped command builder; [build_workflow_task] and
    [show_output] are defined and never bound into it, and
    [build_workflow_task] would only make the task object.  So no number
    of scheduled runs spawns a process or prints anything, whereas
    running a [ShellTask] would add its command to the spawned ones; on the
    sample directory a pass returns two commands while the list of
    spawned commands stays empty. *)
Theorem flow_builds_commands_and_runs_none :
  (forall parent_dir interval n w,
      spawned (snd (flow_run (build_flow parent_dir interval) n w)) = spawned w
      /\ printed (snd (flow_run (build_flow parent_dir interval) n w))
         = printed w)
  /\ (forall c w, build_workflow_task c w = (Ok (mkShellTask c), w))
  /\ (forall c w,
         spawned (snd (ShellTask_run (mkShellTask c) w)) = spawned w ++ [c])
  /\ exists st w',
       run_once (build_flow (py "/data") 10) sample_world = (Ok st, w')
       /\ List.length (cmd st) = 2
       /\ map fst (built st)
          = [py "/data/runA"; py "/data/201203_M00325_0123_000000000-A1B2C"]
       /\ spawned w' = []
       /\ printed w' = [].
Proof.
  split; [|split; [reflexivity|split]].
  - intros parent_dir interval n.
    induction n as [|n IH]; intros w; [now split|].
    cbn [flow_run].
    destruct (run_once (build_flow parent_dir interval) w) as [r w1] eqn:E.
    specialize (IH w1).
    destruct (flow_run (build_flow parent_dir interval) n w1) as [rs w2].
    cbn [snd] in *.
    assert (H1 : spawned w1 = spawned w /\ printed w1 = printed w).
    { destruct (scandir (fs w) parent_dir) as [entries|] eqn:Hs.
      - destruct (run_once_listed parent_dir interval w entries Hs)
          as (cs & w' & E' & _ & _ & S & P).
        rewrite E in E'. injection E' as _ <-. now split.
      - rewrite (run_once_unlisted parent_dir interval w Hs) in E.
        injection E as _ <-. now split. }
    destruct IH, H1. split; congruence.
  - intros c w. reflexivity.
  - eexists. eexists. split; [vm_compute; reflexivity|].
    repeat split; vm_compute; reflexivity.
Qed.

(* ================================================================== *)
(** * More of the script *)
(* ================================================================== *)

(** ** Run IDs of the paths the scanner returns *)

Section Basename.

Lemma rfind_absent (c : codepoint) (s : pystr) :
  existsb (N.eqb c) s = false -> rfind c s = (-1)%Z.
Proof.
  induction s as [|x s IH]; [reflexivity|].
  cbn [existsb rfind]. intros H. apply orb_false_iff in H as [Hx Hs].
  rewrite (IH Hs). cbn. now rewrite N.eqb_sym, Hx.
Qed.

Lemma rfind_last (c : codepoint) (a n : pystr) :
  existsb (N.eqb c) n = false ->
  rfind c (a ++ c :: n) = Z.of_nat (List.length a).
Proof.
  intros Hn. induction a as [|x a IH].
  - cbn [app rfind]. rewrite (rfind_absent _ _ Hn). cbn.
    now rewrite N.eqb_refl.
  - cbn [app rfind List.length]. rewrite IH.
    destruct (0 <=? Z.of_nat (List.length a))%Z eqn:E; [lia|].
    apply Z.leb_gt in E. lia.
Qed.

Lemma basename_last (a n : pystr) :
  has_sep n = false -> basename (a ++ sep :: n) = n.
Proof.
  intros Hn. unfold basename. rewrite (rfind_last _ _ _ Hn).
  replace (Z.to_nat (Z.of_nat (List.length a) + 1)) with (S (List.length a))
    by lia.
  replace (a ++ sep :: n) with ((a ++ [sep]) ++ n)
    by now rewrite <- app_assoc.
  rewrite skipn_app, length_app. cbn [List.length].
  replace (S (List.length a) - (List.length a + 1)) with 0 by lia.
  rewrite skipn_all2 by (rewrite length_app; cbn; lia).
  reflexivity.
Qed.

Lemma basename_name (n : pystr) : has_sep n = false -> basename n = n.
Proof.
  intros Hn. unfold basename. now rewrite (rfind_absent _ _ Hn).
Qed.

Lemma relative_of_no_sep (n : pystr) :
  has_sep n = false -> startswith n [sep] = false.
Proof.
  destruct n as [|x n]; [reflexivity|]. unfold has_sep. cbn [existsb].
  intros H. apply orb_false_iff in H as [Hx _].
  cbn [startswith]. now rewrite N.eqb_sym, Hx.
Qed.

Lemma basename_join (p n : pystr) :
  has_sep n = false -> basename (join p n) = n.
Proof.
  intros Hn. unfold join. rewrite (relative_of_no_sep _ Hn).
  destruct (Str.eqb p []) eqn:Ep.
  - apply eqb_spec in Ep. subst p. now apply basename_name.
  - cbn [orb]. destruct (endswith p [sep]) eqn:Es.
    + apply endswith_spec in Es as [q ->]. rewrite <- app_assoc.
      now apply basename_last.
    + now apply basename_last.
Qed.

End Basename.

(** X1.  The run ID the command builder classifies is the name of the
    entry the scanner joined to the root, whatever the root path is: for
    a name without [/], [basename] undoes [join], so the instrument type
    in the command of a scanned run depends on the entry's name alone. *)
Theorem run_id_of_scanned_path (parent_dir n : pystr) :
  has_sep n = false ->
  basename (join parent_dir n) = n
  /\ instrument_type (basename (join parent_dir n)) = instrument_type n
  /\ forall u,
       exists a b,
         workflow_cmd (join parent_dir n) u
         = a ++ py " --instrument_type " ++ format (instrument_type n)
             ++ py " -work " ++ b.
Proof.
  intros Hn. pose proof (basename_join parent_dir n Hn) as E.
  split; [exact E|]. split; [now rewrite E|].
  intros u. unfold workflow_cmd. rewrite E.
  eexists. eexists. rewrite (app_assoc _ (join parent_dir n)). reflexivity.
Qed.

Lemma run_id_of_scanned_path_witness :
  basename (join (py "../seq/output/") (py "201203_VH00123_0045_AB12CD345"))
  = py "201203_VH00123_0045_AB12CD345"
  /\ instrument_type
       (basename (join (py "../seq/output/")
                       (py "201203_VH00123_0045_AB12CD345")))
     = instrument_type (py "201203_VH00123_0045_AB12CD345")
  /\ forall u,
       exists a b,
         workflow_cmd (join (py "../seq/output/")
                            (py "201203_VH00123_0045_AB12CD345")) u
         = a ++ py " --instrument_type "
             ++ format (instrument_type (py "201203_VH00123_0045_AB12CD345"))
             ++ py " -work " ++ b.
Proof.
  apply (run_id_of_scanned_path (py "../seq/output/")
                                (py "201203_VH00123_0045_AB12CD345")).
  vm_compute. reflexivity.
Defined.

(** X2.  A run directory given with a trailing slash has the empty run
    ID, since [basename] returns what follows the last [/]: whatever the
    directory is called, neither pattern matches and the command carries
    [--instrument_type None]. *)
Theorem trailing_slash_run_dir_unclassified (run_dir : pystr) (w : world) :
  endswith run_dir [sep] = true ->
  basename run_dir = []
  /\ instrument_type (basename run_dir) = None
  /\ exists a b,
       build_workflow_command run_dir w
       = (Ok (a ++ py " --instrument_type None -work " ++ b), after_draw w)
       /\ a = py "nextflow run BCCDC-PHL/routine-qc -profile conda --cache ~/.conda/envs -r v0.3.2--run_dir "
                ++ run_dir.
Proof.
  intros He. apply endswith_spec in He as [q ->].
  assert (E : basename (q ++ [sep]) = []) by now apply basename_last.
  split; [exact E|]. split; [now rewrite E|].
  rewrite build_workflow_command_run, E.
  eexists. eexists. split; [|reflexivity].
  rewrite (app_assoc _ (q ++ [sep])). reflexivity.
Qed.

Lemma trailing_slash_run_dir_unclassified_witness :
  basename (py "/data/201203_M00325_0123_000000000-A1B2C/") = []
  /\ instrument_type (basename (py "/data/201203_M00325_0123_000000000-A1B2C/"))
     = None
  /\ exists a b,
       build_workflow_command (py "/data/201203_M00325_0123_000000000-A1B2C/")
                              sample_world
       = (Ok (a ++ py " --instrument_type None -work " ++ b),
          after_draw sample_world)
       /\ a = py "nextflow run BCCDC-PHL/routine-qc -profile conda --cache ~/.conda/envs -r v0.3.2--run_dir "
                ++ py "/data/201203_M00325_0123_000000000-A1B2C/".
Proof.
  apply (trailing_slash_run_dir_unclassified
           (py "/data/201203_M00325_0123_000000000-A1B2C/") sample_world).
  vm_compute. reflexivity.
Defined.

(** ** The words of a command *)

Section Words.

Lemma build_workflow_command_text (run_dir : pystr) (w : world) :
  build_workflow_command run_dir w
  = (Ok (workflow_cmd run_dir (next_uuid w)), after_draw w).
Proof.
  rewrite build_workflow_command_run. unfold workflow_cmd.
  change (py "work-" ++ Uuid.str (next_uuid w))
    with ((ord "w" :: py "ork-") ++ Uuid.str (next_uuid w)).
  rewrite join_app. now rewrite <- !app_assoc.
Qed.

Lemma split_parts_plain (c : codepoint) (s : pystr) :
  Forall (fun part => existsb (N.eqb c) part = false) (split c s).
Proof.
  induction s as [|x s IH]; cbn [split].
  - repeat constructor.
  - destruct (N.eqb x c) eqn:E.
    + constructor; [reflexivity|exact IH].
    + pose proof (split_nonempty c s) as Hne.
      destruct (split c s) as [|h t]; [contradiction|].
      inversion IH as [|? ? Hh Ht]; subst.
      constructor; [|exact Ht].
      cbn [existsb]. now rewrite N.eqb_sym, E, Hh.
Qed.

Lemma words_no_blank (s x : pystr) :
  In x (words s) -> has_blank x = false /\ x <> [].
Proof.
  unfold words. intros H. apply filter_In in H as [Hin Hne]. split.
  - pose proof (split_parts_plain (ord " ") s) as F.
    rewrite Forall_forall in F. exact (F x Hin).
  - intros ->. discriminate.
Qed.

Lemma words_app (a b : pystr) :
  words (a ++ blank :: b) = words a ++ words b.
Proof. unfold words, blank. now rewrite split_app_sep, filter_app. Qed.

Lemma words_single (s : pystr) :
  s <> [] -> has_blank s = false -> words s = [s].
Proof.
  intros Hne Hb. unfold has_blank, blank in Hb.
  unfold words. rewrite (split_plain _ _ Hb).
  destruct s; [contradiction|reflexivity].
Qed.

Lemma has_blank_app (a b : pystr) :
  has_blank (a ++ b) = (has_blank a || has_blank b)%bool.
Proof. apply existsb_app. Qed.

Lemma has_blank_join (a b : pystr) :
  has_blank a = false -> has_blank b = false -> has_blank (join a b) = false.
Proof.
  intros Ha Hb. unfold join.
  destruct (startswith b [sep]); [exact Hb|].
  destruct (Str.eqb a [] || endswith a [sep])%bool;
    rewrite !has_blank_app, Ha, ?Hb; reflexivity.
Qed.

Lemma join_nonempty (a b : pystr) : b <> [] -> join a b <> [].
Proof.
  intros Hb. unfold join. destruct (startswith b [sep]); [exact Hb|].
  destruct (Str.eqb a [] || endswith a [sep])%bool; intros H;
    apply app_eq_nil in H as [_ H]; [contradiction|discriminate].
Qed.

End Words.

(** ** The text of a UUID *)

Section UuidText.

Lemma hexdigit_is_hex (d : Z) :
  (0 <= d < 16)%Z -> is_hex (Uuid.hexdigit d) = true.
Proof.
  intros Hd. unfold Uuid.hexdigit.
  assert (Hm : Z.to_nat d < 16) by lia.
  revert Hm. generalize (Z.to_nat d). intros m Hm.
  do 16 (destruct m as [|m]; [vm_compute; reflexivity|]). lia.
Qed.

Lemma hex_is_hex (k : nat) : forall n, forallb is_hex (Uuid.hex k n) = true.
Proof.
  induction k as [|k IH]; intros n; cbn [Uuid.hex]; [reflexivity|].
  rewrite forallb_app, IH. cbn [forallb].
  rewrite hexdigit_is_hex; [reflexivity|].
  apply Z.mod_pos_bound. lia.
Qed.

Lemma forallb_firstn {A} (f : A -> bool) (l : list A) :
  forall n, forallb f l = true -> forallb f (firstn n l) = true.
Proof.
  induction l as [|x l IH]; intros [|n] H; try reflexivity.
  cbn in *. apply andb_true_iff in H as [Hx Hl].
  now rewrite Hx, (IH n Hl).
Qed.

Lemma forallb_skipn {A} (f : A -> bool) (l : list A) :
  forall n, forallb f l = true -> forallb f (skipn n l) = true.
Proof.
  induction l as [|x l IH]; intros [|n] H; try reflexivity; try exact H.
  cbn in *. apply andb_true_iff in H as [_ Hl]. now apply IH.
Qed.

(** Every character of the text is a lower-case hex digit or a
    hyphen. *)
Lemma str_chars (u : Z) :
  forallb (fun c => is_hex c || N.eqb c (ord "-"))%bool (Uuid.str u) = true.
Proof.
  assert (H : forallb (fun c => is_hex c || N.eqb c (ord "-"))%bool
                      (Uuid.hex 32 u) = true).
  { pose proof (hex_is_hex 32 u) as H. rewrite forallb_forall in *.
    intros c Hc. now rewrite (H c Hc). }
  unfold Uuid.str, slice. rewrite !forallb_app.
  rewrite !forallb_firstn, !forallb_skipn by (try apply forallb_skipn; exact H).
  reflexivity.
Qed.

Lemma hex_or_hyphen_plain (c : codepoint) :
  (is_hex c || N.eqb c (ord "-"))%bool = true ->
  N.eqb blank c = false /\ N.eqb sep c = false.
Proof.
  intros H. apply orb_true_iff in H as [H|H].
  - unfold is_hex in H. apply existsb_exists in H as (d & Hin & Hd).
    apply N.eqb_eq in Hd. subst d. cbn in Hin.
    repeat (destruct Hin as [<-|Hin]; [split; reflexivity|]).
    contradiction.
  - apply N.eqb_eq in H. subst c. split; reflexivity.
Qed.

Lemma str_plain (u : Z) :
  has_blank (Uuid.str u) = false /\ has_sep (Uuid.str u) = false.
Proof.
  pose proof (str_chars u) as H. rewrite forallb_forall in H.
  unfold has_blank, has_sep. split.
  - destruct (existsb (N.eqb blank) (Uuid.str u)) eqn:E; [|reflexivity].
    apply existsb_exists in E as (c & Hin & Hc).
    destruct (hex_or_hyphen_plain c (H c Hin)). congruence.
  - destruct (existsb (N.eqb sep) (Uuid.str u)) eqn:E; [|reflexivity].
    apply existsb_exists in E as (c & Hin & Hc).
    destruct (hex_or_hyphen_plain c (H c Hin)). congruence.
Qed.

Lemma str_length (u : Z) : List.length (Uuid.str u) = 36.
Proof.
  unfold Uuid.str, slice.
  rewrite !length_app, !length_firstn, !length_skipn, hex_length.
  reflexivity.
Qed.

End UuidText.

Lemma format_type_plain (run_id : pystr) :
  format (instrument_type run_id) <> []
  /\ has_blank (format (instrument_type run_id)) = false.
Proof.
  destruct (instrument_type_cases run_id) as [(E & _)|[(E & _)|(E & _)]];
    rewrite E; split; try discriminate; reflexivity.
Qed.

Lemma work_name_plain (u : Z) :
  has_blank (py "work-" ++ Uuid.str u) = false
  /\ has_sep (py "work-" ++ Uuid.str u) = false
  /\ py "work-" ++ Uuid.str u <> [].
Proof.
  destruct (str_plain u) as [Hb Hs]. split; [|split].
  - now rewrite has_blank_app, Hb.
  - unfold has_sep in *. rewrite existsb_app.
    apply orb_false_iff. split; [reflexivity|exact Hs].
  - discriminate.
Qed.

Lemma workflow_cmd_fields (run_dir : pystr) (u : Z) :
  workflow_cmd run_dir u
  = py "nextflow run BCCDC-PHL/routine-qc -profile conda --cache ~/.conda/envs -r v0.3.2--run_dir"
      ++ blank :: run_dir
      ++ blank :: py "--instrument_type"
      ++ blank :: format (instrument_type (basename run_dir))
      ++ blank :: py "-work"
      ++ blank :: join run_dir (py "work-" ++ Uuid.str u)
      ++ blank :: py "--outdir"
      ++ blank :: join run_dir (py "RoutineQC").
Proof. reflexivity. Qed.

(** X3.  For a run directory whose path is not empty and has no blank,
    the command splits at blanks into sixteen words: the eight of the
    fixed prefix, the fused [v0.3.2--run_dir], the run directory, and the
    three flag and value pairs for the instrument type, the work
    directory and the output directory, in this order. *)
Theorem command_words_of_blank_free_run_dir (run_dir : pystr) (w : world) :
  run_dir <> [] ->
  has_blank run_dir = false ->
  exists c,
    build_workflow_command run_dir w = (Ok c, after_draw w)
    /\ words c
       = [py "nextflow"; py "run"; py "BCCDC-PHL/routine-qc"; py "-profile";
          py "conda"; py "--cache"; py "~/.conda/envs"; py "-r";
          py "v0.3.2--run_dir"; run_dir;
          py "--instrument_type"; format (instrument_type (basename run_dir));
          py "-work"; join run_dir (py "work-" ++ Uuid.str (next_uuid w));
          py "--outdir"; join run_dir (py "RoutineQC")].
Proof.
  intros Hne Hb. eexists. split; [apply build_workflow_command_text|].
  destruct (format_type_plain (basename run_dir)) as [Tne Tb].
  destruct (work_name_plain (next_uuid w)) as (Wb & _ & Wne).
  rewrite workflow_cmd_fields, !words_app.
  rewrite (words_single run_dir Hne Hb).
  rewrite (words_single _ Tne Tb).
  rewrite (words_single (join run_dir (py "work-" ++ Uuid.str (next_uuid w))))
    by (try apply join_nonempty; try apply has_blank_join; assumption).
  rewrite (words_single (join run_dir (py "RoutineQC")))
    by (try apply join_nonempty; try apply has_blank_join;
        try assumption; try discriminate; reflexivity).
  reflexivity.
Qed.

Lemma command_words_of_blank_free_run_dir_witness :
  exists c,
    build_workflow_command (py "/data/runA") sample_world
    = (Ok c, after_draw sample_world)
    /\ words c
       = [py "nextflow"; py "run"; py "BCCDC-PHL/routine-qc"; py "-profile";
          py "conda"; py "--cache"; py "~/.conda/envs"; py "-r";
          py "v0.3.2--run_dir"; py "/data/runA";
          py "--instrument_type";
          format (instrument_type (basename (py "/data/runA")));
          py "-work";
          join (py "/data/runA")
               (py "work-" ++ Uuid.str (next_uuid sample_world));
          py "--outdir"; join (py "/data/runA") (py "RoutineQC")].
Proof.
  apply (command_words_of_blank_free_run_dir (py "/data/runA") sample_world).
  - discriminate.
  - vm_compute. reflexivity.
Defined.

Lemma endswith_after (a b : pystr) (c : codepoint) :
  b <> [] -> endswith (a ++ b) [c] = endswith b [c].
Proof.
  intros Hb. destruct (exists_last Hb) as (q & z & ->).
  destruct (N.eqb z c) eqn:E.
  - apply N.eqb_eq in E. subst z.
    transitivity true; [|symmetry]; apply endswith_spec.
    + exists (a ++ q). now rewrite app_assoc.
    + now exists q.
  - transitivity false; [|symmetry].
    + destruct (endswith (a ++ q ++ [z]) [c]) eqn:H; [|reflexivity].
      apply endswith_spec in H as (s' & H). rewrite app_assoc in H.
      apply app_inj_tail in H as [_ ->]. now rewrite N.eqb_refl in E.
    + destruct (endswith (q ++ [z]) [c]) eqn:H; [|reflexivity].
      apply endswith_spec in H as (s' & H).
      apply app_inj_tail in H as [_ ->]. now rewrite N.eqb_refl in E.
Qed.

Lemma join_after_blank (a b x : pystr) :
  b <> [] ->
  startswith x [sep] = false ->
  join (a ++ blank :: b) x = a ++ blank :: join b x.
Proof.
  intros Hb Hx. unfold join. rewrite Hx.
  replace (Str.eqb (a ++ blank :: b) []) with false by now destruct a.
  replace (Str.eqb b []) with false by now destruct b.
  cbn [orb].
  replace (a ++ blank :: b) with ((a ++ [blank]) ++ b)
    by now rewrite <- app_assoc.
  rewrite (endswith_after (a ++ [blank]) b sep Hb).
  destruct (endswith b [sep]); now rewrite <- !app_assoc.
Qed.

(** X4.  The command is put together without quoting, so a blank in the
    path of the run directory splits it.  For a run directory [a b],
    with [a] and [b] not empty and free of blanks, the command has
    nineteen words instead of sixteen: after [v0.3.2--run_dir] come the
    two words [a] and [b], the work directory is the two words [a] and
    [b/work-<uuid>], and the output directory the two words [a] and
    [b/RoutineQC]. *)
Theorem run_dir_with_blank_is_split (a b : pystr) (w : world) :
  a <> [] -> b <> [] ->
  has_blank a = false -> has_blank b = false ->
  exists c,
    build_workflow_command (a ++ py " " ++ b) w = (Ok c, after_draw w)
    /\ words c
       = [py "nextflow"; py "run"; py "BCCDC-PHL/routine-qc"; py "-profile";
          py "conda"; py "--cache"; py "~/.conda/envs"; py "-r";
          py "v0.3.2--run_dir"; a; b;
          py "--instrument_type";
          format (instrument_type (basename (a ++ py " " ++ b)));
          py "-work"; a; join b (py "work-" ++ Uuid.str (next_uuid w));
          py "--outdir"; a; join b (py "RoutineQC")].
Proof.
  intros Ha Hb Ba Bb. eexists. split; [apply build_workflow_command_text|].
  destruct (format_type_plain (basename (a ++ py " " ++ b))) as [Tne Tb].
  destruct (work_name_plain (next_uuid w)) as (Wb & _ & Wne).
  rewrite workflow_cmd_fields.
  change (py " " ++ b) with (blank :: b) in *.
  rewrite !(join_after_blank a b) by (try assumption; reflexivity).
  rewrite <- !app_assoc, <- !app_comm_cons.
  rewrite !words_app.
  rewrite (words_single a Ha Ba), (words_single b Hb Bb).
  rewrite (words_single _ Tne Tb).
  rewrite (words_single (join b (py "work-" ++ Uuid.str (next_uuid w))))
    by (try apply join_nonempty; try apply has_blank_join; assumption).
  rewrite (words_single (join b (py "RoutineQC")))
    by (try apply join_nonempty; try apply has_blank_join;
        try assumption; try discriminate; reflexivity).
  reflexivity.
Qed.

Lemma run_dir_with_blank_is_split_witness :
  exists c,
    build_workflow_command (py "/data/my" ++ py " " ++ py "runs/runA")
                           sample_world
    = (Ok c, after_draw sample_world)
    /\ words c
       = [py "nextflow"; py "run"; py "BCCDC-PHL/routine-qc"; py "-profile";
          py "conda"; py "--cache"; py "~/.conda/envs"; py "-r";
          py "v0.3.2--run_dir"; py "/data/my"; py "runs/runA";
          py "--instrument_type";
          format (instrument_type
                    (basename (py "/data/my" ++ py " " ++ py "runs/runA")));
          py "-work"; py "/data/my";
          join (py "runs/runA")
               (py "work-" ++ Uuid.str (next_uuid sample_world));
          py "--outdir"; py "/data/my"; join (py "runs/runA") (py "RoutineQC")].
Proof.
  apply (run_dir_with_blank_is_split (py "/data/my") (py "runs/runA")
                                     sample_world);
    try discriminate; vm_compute; reflexivity.
Defined.

(** ** The name of the work directory *)

Section WorkDirName.

Open Scope Z_scope.

Lemma hex_nth (k : nat) :
  forall n i,
    (i < k)%nat ->
    nth_error (Uuid.hex k n) i
    = Some (Uuid.hexdigit ((n / 16 ^ Z.of_nat (k - 1 - i)) mod 16)).
Proof.
  induction k as [|k IH]; intros n i Hi; [lia|].
  cbn [Uuid.hex]. destruct (Nat.eq_dec i k) as [->|Hne].
  - rewrite nth_error_app2 by (rewrite hex_length; lia).
    rewrite hex_length, Nat.sub_diag.
    replace (S k - 1 - k)%nat with 0%nat by lia.
    cbn [nth_error Z.of_nat]. now rewrite Z.pow_0_r, Z.div_1_r.
  - rewrite nth_error_app1 by (rewrite hex_length; lia).
    rewrite IH by lia.
    replace (S k - 1 - i)%nat with (S (k - 1 - i)) by lia.
    rewrite Nat2Z.inj_succ, Z.pow_succ_r by lia.
    rewrite Z.div_div by (try apply Z.pow_pos_nonneg; lia).
    reflexivity.
Qed.

Lemma str_layout (h : pystr) :
  List.length h = 32%nat ->
  let t := slice 0 8 h ++ py "-" ++ slice 8 12 h ++ py "-" ++ slice 12 16 h
             ++ py "-" ++ slice 16 20 h ++ py "-" ++ skipn 20 h in
  nth_error t 8 = Some (ord "-")
  /\ nth_error t 13 = Some (ord "-")
  /\ nth_error t 18 = Some (ord "-")
  /\ nth_error t 23 = Some (ord "-")
  /\ nth_error t 14 = nth_error h 12
  /\ nth_error t 19 = nth_error h 16.
Proof.
  intros L.
  do 32 (destruct h as [|? h]; [discriminate|]).
  destruct h; [|discriminate].
  cbv zeta. repeat split.
Qed.

Lemma UUID_v4_bit (x i : Z) :
  0 <= i ->
  Z.testbit (Uuid.UUID_v4 x) i
  = ((Z.testbit x i && negb (Z.testbit (Z.shiftl 49152 48) i)
      || Z.testbit (Z.shiftl 32768 48) i)
     && negb (Z.testbit (Z.shiftl 61440 64) i)
     || Z.testbit (Z.shiftl 4 76) i)%bool.
Proof.
  intros Hi. unfold Uuid.UUID_v4.
  now rewrite Z.lor_spec, Z.land_spec, Z.lnot_spec, Z.lor_spec, Z.land_spec,
    Z.lnot_spec by assumption.
Qed.

Lemma nibble_bit (y s i : Z) :
  0 <= s -> 0 <= i ->
  Z.testbit ((y / 2 ^ s) mod 16) i
  = (Z.testbit y (i + s) && (i <? 4))%bool.
Proof.
  intros Hs Hi. change 16 with (2 ^ 4).
  rewrite <- Z.land_ones, <- Z.shiftr_div_pow2 by lia.
  rewrite Z.land_spec, Z.shiftr_spec by assumption.
  destruct (Z.ltb_spec i 4).
  - now rewrite Z.ones_spec_low by lia.
  - now rewrite Z.ones_spec_high by lia.
Qed.

(** The version nibble, bits 76 to 79, is 4. *)
Lemma UUID_v4_version (x : Z) : (Uuid.UUID_v4 x / 2 ^ 76) mod 16 = 4.
Proof.
  apply Z.bits_inj'. intros i Hi.
  rewrite nibble_bit by lia.
  destruct (Z.ltb_spec i 4) as [Hlt|Hge].
  - rewrite UUID_v4_bit by lia.
    generalize (Z.testbit x (i + 76)). intros b.
    assert (Hc : i = 0 \/ i = 1 \/ i = 2 \/ i = 3) by lia.
    destruct Hc as [-> | [-> | [-> | -> ]]]; destruct b; reflexivity.
  - rewrite andb_false_r. symmetry.
    apply (bits_above (x := 4) (n := 3)); [now vm_compute|lia].
Qed.

(** The variant nibble, bits 60 to 63, is binary 10xx. *)
Lemma UUID_v4_variant (x : Z) :
  8 <= (Uuid.UUID_v4 x / 2 ^ 60) mod 16 <= 11.
Proof.
  pose proof (Z.mod_pos_bound (Uuid.UUID_v4 x / 2 ^ 60) 16 eq_refl) as Hr.
  assert (H3 : Z.testbit ((Uuid.UUID_v4 x / 2 ^ 60) mod 16) 3 = true).
  { rewrite nibble_bit, UUID_v4_bit by lia.
    generalize (Z.testbit x (3 + 60)). intros b. destruct b; reflexivity. }
  assert (H2 : Z.testbit ((Uuid.UUID_v4 x / 2 ^ 60) mod 16) 2 = false).
  { rewrite nibble_bit, UUID_v4_bit by lia.
    generalize (Z.testbit x (2 + 60)). intros b. destruct b; reflexivity. }
  revert Hr H3 H2. generalize ((Uuid.UUID_v4 x / 2 ^ 60) mod 16).
  intros v Hr H3 H2.
  assert (Hc : v = 0 \/ v = 1 \/ v = 2 \/ v = 3 \/ v = 4 \/ v = 5 \/ v = 6
               \/ v = 7 \/ v = 8 \/ v = 9 \/ v = 10 \/ v = 11 \/ v = 12
               \/ v = 13 \/ v = 14 \/ v = 15) by lia.
  repeat (destruct Hc as [->|Hc]; [try discriminate; try lia|]).
  subst v. discriminate.
Qed.

End WorkDirName.

(** X5.  The name of the work directory is [work-] and the 36 characters
    of a version-4 UUID: lower-case hex digits with hyphens at indices 8,
    13, 18 and 23, the digit [4] at index 14 and one of [8], [9], [a],
    [b] at index 19.  So the name is 41 characters long, has no blank
    and no [/] in it, and is a name a directory can hold. *)
Theorem work_dir_name_format (w : world) :
  let text := Uuid.str (next_uuid w) in
  List.length (py "work-" ++ text) = 41
  /\ forallb (fun c => is_hex c || N.eqb c (ord "-"))%bool text = true
  /\ nth_error text 8 = Some (ord "-")
  /\ nth_error text 13 = Some (ord "-")
  /\ nth_error text 18 = Some (ord "-")
  /\ nth_error text 23 = Some (ord "-")
  /\ nth_error text 14 = Some (ord "4")
  /\ (exists v, nth_error text 19 = Some v /\ In v (py "89ab"))
  /\ has_blank (py "work-" ++ text) = false
  /\ plain_name (py "work-" ++ text) = true.
Proof.
  cbv zeta.
  destruct (str_layout (Uuid.hex 32 (next_uuid w)) (hex_length 32 _))
    as (H8 & H13 & H18 & H23 & H14 & H19).
  fold (Uuid.str (next_uuid w)) in H8, H13, H18, H23, H14, H19.
  destruct (work_name_plain (next_uuid w)) as (Wb & Ws & _).
  split; [rewrite length_app, str_length; reflexivity|].
  split; [apply str_chars|].
  do 4 (split; [assumption|]).
  split.
  { rewrite H14, hex_nth by lia. unfold next_uuid.
    change (16 ^ Z.of_nat (32 - 1 - 12))%Z with (2 ^ 76)%Z.
    now rewrite UUID_v4_version. }
  split.
  { rewrite H19, hex_nth by lia. unfold next_uuid.
    change (16 ^ Z.of_nat (32 - 1 - 16))%Z with (2 ^ 60)%Z.
    pose proof (UUID_v4_variant (urandom w (urandom_calls w) mod 2 ^ 128))
      as Hv.
    eexists. split; [reflexivity|].
    revert Hv.
    generalize ((Uuid.UUID_v4 (urandom w (urandom_calls w) mod 2 ^ 128)
                 / 2 ^ 60) mod 16)%Z.
    intros v Hv.
    assert (Hc : (v = 8 \/ v = 9 \/ v = 10 \/ v = 11)%Z) by lia.
    destruct Hc as [-> | [-> | [-> | -> ]]]; vm_compute; tauto. }
  split; [exact Wb|].
  unfold plain_name. unfold has_sep in Ws. rewrite Ws. reflexivity.
Qed.

(** ** The output directory and the analysis marker *)

(** X7.  The output directory of a command is the path the filter
    tests.  The command ends in [--outdir] and the path
    [os.path.join(run_dir, 'RoutineQC')]: in any later state where that
    path exists the filter drops the run directory from whatever list it
    is given, and where it does not exist the filter keeps it. *)
Theorem outdir_is_analysis_marker (run_dir : pystr) (w : world) :
  exists a o,
    build_workflow_command run_dir w
    = (Ok (a ++ py " --outdir " ++ o), after_draw w)
    /\ o = join run_dir RoutineQC
    /\ (forall w2 xs,
           path_exists (fs w2) o = true ->
           exists kept,
             filter_analyzed_runs xs w2 = (Ok kept, w2) /\ ~ In run_dir kept)
    /\ (forall w2 xs,
           path_exists (fs w2) o = false ->
           In run_dir xs ->
           exists kept,
             filter_analyzed_runs xs w2 = (Ok kept, w2) /\ In run_dir kept).
Proof.
  eexists. exists (join run_dir RoutineQC). split.
  { rewrite build_workflow_command_run. rewrite !app_assoc. reflexivity. }
  split; [reflexivity|]. split.
  - intros w2 xs He. eexists. split; [apply filter_analyzed_runs_eq|].
    intros Hin. apply filter_In in Hin as [_ Hk]. now rewrite He in Hk.
  - intros w2 xs He Hin. eexists. split; [apply filter_analyzed_runs_eq|].
    apply filter_In. split; [exact Hin|]. now rewrite He.
Qed.

(** ** One command per run, and the command of that run *)

Section Alignment.

Lemma uuid_of_draw_after (w : world) (k : nat) :
  uuid_of_draw (after_draw w) k = uuid_of_draw w k.
Proof. reflexivity. Qed.

Lemma map_build_aligned (xs : list pystr) :
  forall w, exists cs w',
    map_task build_workflow_command xs w = (Ok cs, w')
    /\ List.length cs = List.length xs
    /\ (forall i d,
           nth_error xs i = Some d ->
           nth_error cs i
           = Some (workflow_cmd d (uuid_of_draw w (urandom_calls w + i))))
    /\ fs w' = fs w /\ urandom w' = urandom w
    /\ urandom_calls w' = urandom_calls w + List.length xs.
Proof.
  induction xs as [|x xs IH]; intros w.
  - exists [], w. repeat split; try reflexivity.
    + intros [|i] d H; discriminate.
    + cbn. lia.
  - cbn [map_task]. unfold bind at 1.
    rewrite build_workflow_command_text.
    destruct (IH (after_draw w)) as (cs & w' & E & L & A & F & U & C).
    unfold bind at 1. rewrite E. unfold ret.
    eexists. eexists. split; [reflexivity|].
    split; [cbn; now rewrite L|]. split; [|split; [|split]].
    + intros [|i] d H; cbn [nth_error] in *.
      * injection H as <-. rewrite Nat.add_0_r. reflexivity.
      * rewrite (A i d H). cbn [after_draw urandom_calls].
        rewrite uuid_of_draw_after.
        replace (S (urandom_calls w) + i) with (urandom_calls w + S i) by lia.
        reflexivity.
    + exact F.
    + exact U.
    + rewrite C. cbn. lia.
Qed.

End Alignment.

Lemma in_combine_nth {A B} (l : list A) :
  forall (l' : list B) a b,
    In (a, b) (combine l l') ->
    exists i, nth_error l i = Some a /\ nth_error l' i = Some b.
Proof.
  induction l as [|x l IH]; intros [|y l'] a b H; try contradiction.
  destruct H as [H|H].
  - injection H as -> ->. now exists 0.
  - destruct (IH _ _ _ H) as (i & Ha & Hb). now exists (S i).
Qed.

(** X9.  The mapped command builder keeps run directories and commands
    in step.  Mapped over any list of run directories it returns one
    command per element, in order: the command at position [i] is the
    command text of the run directory at position [i] with the UUID of
    draw number [urandom_calls w + i], so every pair of a run directory
    and its command holds the command that names that directory.  It
    draws from [os.urandom] once per element, not at all for the empty
    list, and leaves the filesystem as it is. *)
Theorem mapped_builder_in_step (xs : list pystr) (w : world) :
  exists cs w',
    map_task build_workflow_command xs w = (Ok cs, w')
    /\ List.length cs = List.length xs
    /\ (forall i d,
           nth_error xs i = Some d ->
           nth_error cs i
           = Some (workflow_cmd d (uuid_of_draw w (urandom_calls w + i))))
    /\ (forall d c,
           In (d, c) (combine xs cs) ->
           exists i,
             i < List.length xs
             /\ c = workflow_cmd d (uuid_of_draw w (urandom_calls w + i)))
    /\ fs w' = fs w
    /\ urandom_calls w' = urandom_calls w + List.length xs.
Proof.
  destruct (map_build_aligned xs w) as (cs & w' & E & L & A & F & _ & C).
  exists cs, w'. split; [exact E|]. split; [exact L|]. split; [exact A|].
  split; [|split; assumption].
  intros d c Hin. apply in_combine_nth in Hin as (i & Hd & Hc).
  exists i. split.
  - apply nth_error_Some. congruence.
  - rewrite (A i d Hd) in Hc. now injection Hc.
Qed.

(** ** The filter on any list *)

(** X10.  [filter_analyzed_runs] judges each path on its own and changes
    nothing.  On any list of paths it returns, in their order, the paths
    [x] for which [os.path.join(x, 'RoutineQC')] does not exist; the
    result of a concatenation is the concatenation of the results;
    filtering the result again returns it unchanged; and the empty list
    gives the empty list. *)
Theorem filter_judges_each_path_alone (w : world) :
  (forall xs,
      exists kept,
        filter_analyzed_runs xs w = (Ok kept, w)
        /\ (forall x, In x kept
                      <-> In x xs
                          /\ path_exists (fs w) (join x RoutineQC) = false)
        /\ List.length kept <= List.length xs
        /\ filter_analyzed_runs kept w = (Ok kept, w))
  /\ (forall xs ys kx ky,
         filter_analyzed_runs xs w = (Ok kx, w) ->
         filter_analyzed_runs ys w = (Ok ky, w) ->
         filter_analyzed_runs (xs ++ ys) w = (Ok (kx ++ ky), w))
  /\ filter_analyzed_runs [] w = (Ok [], w).
Proof.
  split; [|split; [|reflexivity]].
  - intros xs. eexists. split; [apply filter_analyzed_runs_eq|].
    split; [|split].
    + intros x. rewrite filter_In, negb_true_iff. reflexivity.
    + apply filter_length_le.
    + rewrite filter_analyzed_runs_eq. do 2 f_equal.
      induction xs as [|x xs IH]; [reflexivity|]. cbn [filter].
      destruct (negb (path_exists (fs w) (join x RoutineQC))) eqn:E;
        [|exact IH].
      cbn [filter]. rewrite E. now f_equal.
  - intros xs ys kx ky Hx Hy.
    rewrite filter_analyzed_runs_eq in *.
    injection Hx as <-. injection Hy as <-. now rewrite filter_app.
Qed.

Lemma walk_stay (anc : list node) (cur : node) :
  walk anc cur [[]]
  = match cur with
    | File => None
    | Dir _ => Some (anc, cur)
    end.
Proof. now destruct cur. Qed.

(** ** Short run IDs *)

Lemma in_lang_min_length (p : pattern) :
  forall m, in_lang p m -> min_length p <= List.length m.
Proof.
  induction p as [|it p IH]; intros m H; cbn in *; [lia|].
  destruct H as (u & v & -> & (_ & Hu & _) & Hv).
  rewrite length_app. specialize (IH v Hv). unfold min_length in IH. lia.
Qed.

(** X14.  A run ID is classified only when it is long enough for its
    pattern: a MiSeq run ID has at least 31 characters, a NextSeq run ID
    at least 26, and every run ID of fewer than 26 characters, the empty
    one among them, is left unclassified. *)
Theorem short_run_id_unclassified (run_id : pystr) :
  (instrument_type run_id = Some (py "miseq") -> 31 <= List.length run_id)
  /\ (instrument_type run_id = Some (py "nextseq") -> 26 <= List.length run_id)
  /\ (List.length run_id < 26 -> instrument_type run_id = None).
Proof.
  assert (Hlen : forall p,
             truthy (re_match p run_id) = true ->
             min_length p <= List.length run_id).
  { intros p H. apply re_match_spec in H as (m & t & -> & Hm).
    apply in_lang_min_length in Hm. rewrite length_app. lia. }
  destruct (instrument_type_cases run_id)
    as [(E & Hm & _)|[(E & _ & Hn)|(E & _)]]; rewrite E.
  - apply Hlen in Hm. change (min_length miseq_regex) with 31 in Hm.
    repeat split; intros; try discriminate; lia.
  - apply Hlen in Hn. change (min_length nextseq_regex) with 26 in Hn.
    repeat split; intros; try lia.
    vm_compute in H. discriminate.
  - repeat split; intros; try discriminate; reflexivity.
Qed.

(** ** Paths that are no run directory *)

Section NoRunDir.

Lemma resolve_join_None (fs : filesystem) (p n : pystr) :
  p <> [] ->
  resolve fs p = None ->
  plain_name n = true ->
  resolve fs (join p n) = None.
Proof.
  intros Hne Hp Hn.
  pose proof (plain_name_relative n Hn) as Hrel.
  pose proof (plain_name_parts n Hn) as (_ & Hsep & _).
  destruct p as [|c p]; [contradiction|].
  unfold join. rewrite Hrel.
  change (Str.eqb (c :: p) []) with false. cbn [orb].
  unfold resolve in Hp.
  destruct (endswith (c :: p) [sep]) eqn:He.
  - apply endswith_spec in He as [q Hq].
    assert (Hj : (c :: p) ++ n = c :: (p ++ n)) by reflexivity.
    rewrite Hj. unfold resolve. rewrite <- Hj. clear Hj.
    rewrite Hq in *. rewrite <- app_assoc. cbn [app].
    rewrite split_app_sep in Hp. rewrite split_app_sep.
    rewrite (split_plain _ _ Hsep).
    change (split sep []) with [@nil codepoint] in Hp.
    rewrite app_assoc, walk_app in Hp. rewrite app_assoc, walk_app.
    destruct (walk [] (root fs)
                   ((if N.eqb c sep then [] else cwd fs) ++ split sep q))
      as [[anc0 cur0]|]; [|reflexivity].
    rewrite walk_stay in Hp. rewrite walk_plain by assumption.
    now destruct cur0.
  - assert (Hj : (c :: p) ++ [sep] ++ n = c :: (p ++ [sep] ++ n))
      by reflexivity.
    rewrite Hj. unfold resolve. rewrite <- Hj. clear Hj.
    change ([sep] ++ n) with (sep :: n).
    rewrite split_app_sep, (split_plain _ _ Hsep).
    now rewrite app_assoc, walk_app, Hp.
Qed.

Lemma no_marker_outside_directory (fs : filesystem) (p n : pystr) :
  p <> [] ->
  (forall entries, stat fs p <> Some (Dir entries)) ->
  plain_name n = true ->
  path_exists fs (join p n) = false.
Proof.
  intros Hne Hnd Hn. unfold path_exists, stat in *.
  destruct (resolve fs p) as [[anc cur]|] eqn:Hp.
  - rewrite (resolve_join fs p n anc cur Hp Hn), walk_plain by assumption.
    destruct cur as [|entries]; [reflexivity|].
    now destruct (Hnd entries).
  - now rewrite (resolve_join_None fs p n Hne Hp Hn).
Qed.

End NoRunDir.

(** X15.  Neither the filter nor the command builder checks that a run
    directory is there.  A path that is not empty and names nothing, or
    names a regular file, has no [RoutineQC] under it, so the filter
    keeps it wherever it occurs in its input, and the command builder
    returns a command for it as for any other path. *)
Theorem missing_run_dir_is_kept (x : pystr) (xs : list pystr) (w : world) :
  x <> [] ->
  (forall entries, stat (fs w) x <> Some (Dir entries)) ->
  In x xs ->
  exists kept,
    filter_analyzed_runs xs w = (Ok kept, w)
    /\ In x kept
    /\ build_workflow_command x w
       = (Ok (workflow_cmd x (next_uuid w)), after_draw w).
Proof.
  intros Hne Hnd Hin. eexists.
  split; [apply filter_analyzed_runs_eq|].
  split; [|apply build_workflow_command_text].
  apply filter_In. split; [exact Hin|].
  now rewrite (no_marker_outside_directory (fs w) x RoutineQC Hne Hnd
                 plain_RoutineQC).
Qed.

Lemma missing_run_dir_is_kept_witness :
  exists kept,
    filter_analyzed_runs [py "/data/runA"; py "/data/gone"] sample_world
    = (Ok kept, sample_world)
    /\ In (py "/data/gone") kept
    /\ build_workflow_command (py "/data/gone") sample_world
       = (Ok (workflow_cmd (py "/data/gone") (next_uuid sample_world)),
          after_draw sample_world).
Proof.
  apply (missing_run_dir_is_kept (py "/data/gone")
           [py "/data/runA"; py "/data/gone"] sample_world).
  - discriminate.
  - intros entries. vm_compute. discriminate.
  - right. left. reflexivity.
Defined.

(* ================================================================== *)
(** * The file as committed *)
(* ================================================================== *)

Section Committed.

Lemma auto_qc_py_open : brackets_closed auto_qc_py = false.
Proof. vm_compute. reflexivity. Qed.

(** Whatever the module would do once loaded, it is not reached. *)
Lemma python_auto_qc_py {A : Type} (run : world -> A * world) (w : world) :
  python auto_qc_py run w = (SyntaxError, w).
Proof. unfold python. now rewrite auto_qc_py_open. Qed.

Lemma open_from_line_26 (k : nat) :
  26 <= k <= 84 -> 1 <= open_after auto_qc_py k.
Proof.
  intros Hk.
  assert (H : forallb (fun k => Nat.leb 1 (open_after auto_qc_py k))
                      (seq 26 59) = true) by (vm_compute; reflexivity).
  rewrite forallb_forall in H. apply Nat.leb_le, H, in_seq. lia.
Qed.

End Committed.

(** C7 on the script.  Line 26, the [if] of the scanner's loop, opens
    three parentheses and closes two.  No bracket is open before it, one
    stays open from it to the last of the 84 lines, so the file ends
    inside a bracket and [python] stops with a [SyntaxError]: the
    scanner is never defined and returns nothing, on any root. *)
Theorem scanner_line_26_does_not_compile :
  nth 25 auto_qc_py EmptyString
  = "        if f.is_dir() and os.path.exists(os.path.join(f, 'upload_complete.json'):"%string
  /\ count_char "(" (nth 25 auto_qc_py EmptyString) = 3
  /\ count_char ")" (nth 25 auto_qc_py EmptyString) = 2
  /\ open_after auto_qc_py 25 = 0
  /\ (forall k, 26 <= k <= 84 -> 1 <= open_after auto_qc_py k)
  /\ List.length auto_qc_py = 84
  /\ brackets_closed auto_qc_py = false
  /\ (forall parent_dir w,
         python auto_qc_py (list_subdirectories parent_dir) w
         = (SyntaxError, w))
  /\ python auto_qc_py (list_subdirectories (py "/data")) sample_world
     = (SyntaxError, sample_world).
Proof.
  split; [reflexivity|]. split; [reflexivity|]. split; [reflexivity|].
  split; [reflexivity|]. split; [exact open_from_line_26|].
  split; [reflexivity|]. split; [exact auto_qc_py_open|].
  split; [intros; apply python_auto_qc_py|apply python_auto_qc_py].
Qed.



(** C10 on the script.  The check of the completion marker is the line
    that does not compile: over a root whose run directory holds a
    directory [upload_complete.json], as over any other, the script
    stops at its [SyntaxError] and nothing counts as a marker.  The
    check of the analysis marker is sound and blind to the kind of the
    entry: a run directory that holds an entry [RoutineQC], a regular
    file as much as a directory, is dropped by the filter from any
    list. *)
Theorem completion_check_does_not_compile :
  python auto_qc_py (flow_run (build_flow (py "/data") 10) 1) odd_world
  = (SyntaxError, odd_world)
  /\ (forall w x xs anc inner kind,
         resolve (fs w) x = Some (anc, Dir inner) ->
         lookup RoutineQC inner = Some kind ->
         exists kept,
           filter_analyzed_runs xs w = (Ok kept, w) /\ ~ In x kept)
  /\ (forall w x xs anc inner,
         resolve (fs w) x = Some (anc, Dir inner) ->
         lookup RoutineQC inner = None ->
         In x xs ->
         exists kept,
           filter_analyzed_runs xs w = (Ok kept, w) /\ In x kept).
Proof.
  split; [apply python_auto_qc_py|].
  assert (Hex : forall w x anc inner,
             resolve (fs w) x = Some (anc, Dir inner) ->
             path_exists (fs w) (join x RoutineQC)
             = truthy (lookup RoutineQC inner)).
  { intros w x anc inner Hx. unfold path_exists, stat.
    rewrite (resolve_join (fs w) x RoutineQC anc (Dir inner) Hx
                          plain_RoutineQC).
    rewrite walk_plain by exact plain_RoutineQC.
    now destruct (lookup RoutineQC inner). }
  split.
  - intros w x xs anc inner kind Hx Hk. eexists.
    split; [apply filter_analyzed_runs_eq|].
    intros Hin. apply filter_In in Hin as [_ Hn].
    rewrite (Hex w x anc inner Hx), Hk in Hn. discriminate.
  - intros w x xs anc inner Hx Hk Hin. eexists.
    split; [apply filter_analyzed_runs_eq|].
    apply filter_In. split; [exact Hin|].
    now rewrite (Hex w x anc inner Hx), Hk.
Qed.

(* ================================================================== *)
(** * The unclassified run and the two calls of the builder *)
(* ================================================================== *)

(** C2, as the script has it.  For a run directory whose run ID matches
    neither pattern, [instrument_type] is still [None] when the command
    is formatted and the f-string renders it as the four characters
    [None], not as [unknown]: the command the builder returns is the
    fixed prefix, the run directory, [ --instrument_type None -work ],
    the work directory, [ --outdir ] and the output directory, so it
    contains [--instrument_type None]; and for a run directory path
    that is not empty and has no blank, the word [--instrument_type] of
    the command is followed by the word [None]. *)
Theorem unclassified_run_argument_is_None (run_dir : pystr) (w : world) :
  truthy (re_match miseq_regex (basename run_dir)) = false ->
  truthy (re_match nextseq_regex (basename run_dir)) = false ->
  instrument_type (basename run_dir) = None
  /\ format (instrument_type (basename run_dir)) = py "None"
  /\ format (instrument_type (basename run_dir)) <> py "unknown"
  /\ exists c,
       build_workflow_command run_dir w = (Ok c, after_draw w)
       /\ c = py "nextflow run BCCDC-PHL/routine-qc -profile conda --cache ~/.conda/envs -r v0.3.2--run_dir "
                ++ run_dir ++ py " --instrument_type None -work "
                ++ join run_dir (py "work-" ++ Uuid.str (next_uuid w))
                ++ py " --outdir " ++ join run_dir (py "RoutineQC")
       /\ contains c (py "--instrument_type None") = true
       /\ (run_dir <> [] -> has_blank run_dir = false ->
           words c
           = [py "nextflow"; py "run"; py "BCCDC-PHL/routine-qc";
              py "-profile"; py "conda"; py "--cache"; py "~/.conda/envs";
              py "-r"; py "v0.3.2--run_dir"; run_dir;
              py "--instrument_type"; py "None";
              py "-work";
              join run_dir (py "work-" ++ Uuid.str (next_uuid w));
              py "--outdir"; join run_dir (py "RoutineQC")]).
Proof.
  intros Hm Hn.
  assert (E : instrument_type (basename run_dir) = None)
    by (unfold instrument_type; now rewrite Hm, Hn).
  split; [exact E|]. rewrite E.
  split; [reflexivity|].
  split; [intros H; vm_compute in H; discriminate|].
  exists (workflow_cmd run_dir (next_uuid w)).
  split; [apply build_workflow_command_text|].
  assert (T : workflow_cmd run_dir (next_uuid w)
              = py "nextflow run BCCDC-PHL/routine-qc -profile conda --cache ~/.conda/envs -r v0.3.2--run_dir "
                  ++ run_dir ++ py " --instrument_type None -work "
                  ++ join run_dir (py "work-" ++ Uuid.str (next_uuid w))
                  ++ py " --outdir " ++ join run_dir (py "RoutineQC")).
  { unfold workflow_cmd. rewrite E. reflexivity. }
  split; [exact T|]. split.
  - rewrite T. rewrite (app_assoc _ run_dir).
    change (py " --instrument_type None -work " ++ ?x)
      with (py " " ++ py "--instrument_type None" ++ py " -work " ++ x).
    rewrite (app_assoc _ (py " ")). apply contains_app.
  - intros Hne Hb.
    destruct (work_name_plain (next_uuid w)) as (Wb & _ & Wne).
    rewrite workflow_cmd_fields, E, !words_app.
    rewrite (words_single run_dir Hne Hb).
    rewrite (words_single
               (join run_dir (py "work-" ++ Uuid.str (next_uuid w))))
      by (try apply join_nonempty; try apply has_blank_join; assumption).
    rewrite (words_single (join run_dir (py "RoutineQC")))
      by (try apply join_nonempty; try apply has_blank_join;
          try assumption; try discriminate; reflexivity).
    reflexivity.
Qed.

Lemma unclassified_run_argument_is_None_witness :
  instrument_type (basename (py "/data/randomfolder")) = None
  /\ format (instrument_type (basename (py "/data/randomfolder"))) = py "None"
  /\ format (instrument_type (basename (py "/data/randomfolder")))
     <> py "unknown"
  /\ exists c,
       build_workflow_command (py "/data/randomfolder") sample_world
       = (Ok c, after_draw sample_world)
       /\ c = py "nextflow run BCCDC-PHL/routine-qc -profile conda --cache ~/.conda/envs -r v0.3.2--run_dir "
                ++ py "/data/randomfolder" ++ py " --instrument_type None -work "
                ++ join (py "/data/randomfolder")
                        (py "work-" ++ Uuid.str (next_uuid sample_world))
                ++ py " --outdir " ++ join (py "/data/randomfolder")
                                           (py "RoutineQC")
       /\ contains c (py "--instrument_type None") = true
       /\ (py "/data/randomfolder" <> [] ->
           has_blank (py "/data/randomfolder") = false ->
           words c
           = [py "nextflow"; py "run"; py "BCCDC-PHL/routine-qc";
              py "-profile"; py "conda"; py "--cache"; py "~/.conda/envs";
              py "-r"; py "v0.3.2--run_dir"; py "/data/randomfolder";
              py "--instrument_type"; py "None";
              py "-work";
              join (py "/data/randomfolder")
                   (py "work-" ++ Uuid.str (next_uuid sample_world));
              py "--outdir"; join (py "/data/randomfolder") (py "RoutineQC")]).
Proof.
  apply (unclassified_run_argument_is_None (py "/data/randomfolder")
                                           sample_world);
    vm_compute; reflexivity.
Defined.

Section KeptBits.

Open Scope Z_scope.





End KeptBits.


